(** * monty.serialization: format dispatch for loadfn / dumpfn

    A shallow embedding of [src/monty/serialization.py].  The module is a
    dispatcher: it picks a format tag from a file name (or takes the one the
    caller passes), opens the file through [zopen] and forwards to the JSON,
    YAML or msgpack codec.  Strings are byte strings with ASCII case folding;
    paths follow [posixpath]. *)

From Stdlib Require Import ZArith Ascii String List Bool Lia DecimalString DecimalZ.
From stdpp Require Import base option list gmap strings.

Set Warnings "-register-all".
Local Open Scope string_scope.
Local Open Scope Z_scope.

(** ** Python string primitives used by the module *)

Module PyStr.

(** ASCII part of [str.lower]: code points 65..90 move up by 32. *)
Definition lower_ascii (c : ascii) : ascii :=
  let n := nat_of_ascii c in
  if (Nat.leb 65 n && Nat.leb n 90)%bool then ascii_of_nat (n + 32) else c.

Fixpoint lower (s : string) : string :=
  match s with
  | EmptyString => EmptyString
  | String c r => String (lower_ascii c) (lower r)
  end.

(** [sub in s] on strings: [sub] occurs in [s] at some offset. *)
Fixpoint contains (sub s : string) : bool :=
  String.prefix sub s ||
  match s with
  | EmptyString => false
  | String _ r => contains sub r
  end.

(** [s.rfind(c)]: index of the last occurrence, -1 when there is none.
    [i] is the index of the head of [s], [last] the best index so far. *)
Fixpoint rfind_from (c : ascii) (s : string) (i last : Z) : Z :=
  match s with
  | EmptyString => last
  | String a r => rfind_from c r (i + 1) (if Ascii.eqb a c then i else last)
  end.

Definition rfind (c : ascii) (s : string) : Z := rfind_from c s 0 (-1).

(** [s[i:]] for [0 <= i]. *)
Fixpoint slice_from (i : nat) (s : string) : string :=
  match i, s with
  | O, _ => s
  | S _, EmptyString => EmptyString
  | S j, String _ r => slice_from j r
  end.

(** [s.endswith(suffix)]. *)
Definition endswith (s suffix : string) : bool :=
  String.eqb (slice_from (String.length s - String.length suffix) s) suffix
  && Nat.leb (String.length suffix) (String.length s).

End PyStr.

(** ** os.path.basename and _identify_format *)

Definition sep : ascii := "/"%char.

(** [posixpath.basename]: [i = p.rfind(sep) + 1; return p[i:]]. *)
Definition basename (p : string) : string :=
  let i := PyStr.rfind sep p + 1 in
  PyStr.slice_from (Z.to_nat i) p.

(** [_identify_format(file_name)]; the tag is one of the four strings of
    [_FILE_TYPE]. *)
Definition _identify_format (file_name : string) : string :=
  let basename := PyStr.lower (basename file_name) in
  if PyStr.contains ".mpk" basename then "mpk"
  else if existsb (fun ext => PyStr.contains ext basename) [".yaml"; ".yml"] then "yaml"
  else if PyStr.contains "jsonl" basename then "jsonl"
  else "json".

(** ** Python values, exceptions and results *)

(** The data the codecs exchange with the caller.  A dict keeps insertion
    order and has string keys (JSON-family records); [PyRef] stands for a
    class or function object, named by its qualified name, as passed in
    [cls=], [default=] or [object_hook=]. *)
Inductive pyobj : Type :=
| PyNone
| PyBool (b : bool)
| PyInt (z : Z)
| PyStr (s : string)
| PyList (items : list pyobj)
| PyDict (items : list (string * pyobj))
| PyRef (qualname : string).

(** Keyword arguments [**kwargs]. *)
Abbreviation kwargs_t := (gmap string pyobj).

(** An exception raised inside a codec library, kept as the library raises it. *)
Record codec_exn := CodecExn { exn_class : string; exn_msg : string }.

(** Exceptions by origin: the two this module raises itself, the ones of
    the file layer, and the ones propagated from a codec. *)
Inductive exn : Type :=
| RuntimeError (msg : string)
| TypeError (msg : string)
| OSError (msg : string)
| Foreign (e : codec_exn).

Inductive result (E A : Type) : Type :=
| Ok (a : A)
| Raise (e : E).
Arguments Ok {E A} a.
Arguments Raise {E A} e.

(** [raise TypeError(f"Invalid format: {fmt}")] *)
Definition InvalidFormat (fmt : string) : exn := TypeError ("Invalid format: " ++ fmt).

Definition msgpack_missing : exn :=
  RuntimeError "Loading of message pack files is not possible as msgpack-python is not installed.".

Definition yaml_missing : exn :=
  RuntimeError "Loading of YAML files requires ruamel.yaml.".

(** The objects imported from [monty.json] and [monty.msgpack]. *)
Definition MontyDecoder : pyobj := PyRef "monty.json.MontyDecoder".
Definition MontyEncoder : pyobj := PyRef "monty.json.MontyEncoder".
Definition object_hook : pyobj := PyRef "monty.msgpack.object_hook".
Definition default : pyobj := PyRef "monty.msgpack.default".

(** ** The codec libraries (external collaborators)

    [json] is always importable.  [msgpack] is bound by a guarded import and
    is [None] when the library is missing.  [YAML] is bound by a plain
    import, so a module that has been loaded always has it (see [imported]);
    the record keeps the option because the code tests [YAML is None].  Each
    library is taken
    at the level of texts: [json.load(fp, ..)] is [json.loads(fp.read(), ..)],
    [msgpack.load(fp, ..)] unpacks [fp.read()], [msgpack.dump(obj, fp, ..)]
    and [yaml.dump(obj, fp, ..)] write the encoded text in one call.  Every
    function gets the positional and the keyword arguments of the caller. *)
Record json_module := JsonModule {
  json_dumps : pyobj -> list pyobj -> kwargs_t -> result codec_exn string;
  json_loads : string -> list pyobj -> kwargs_t -> result codec_exn pyobj
}.

Record msgpack_module := MsgpackModule {
  msgpack_packb : pyobj -> list pyobj -> kwargs_t -> result codec_exn string;
  msgpack_unpackb : string -> list pyobj -> kwargs_t -> result codec_exn pyobj
}.

Record yaml_class := YamlClass {
  yaml_dumps : pyobj -> list pyobj -> kwargs_t -> result codec_exn string;
  yaml_loads : string -> list pyobj -> kwargs_t -> result codec_exn pyobj
}.

Inductive compression := Plain | Gzip | Bzip2.

Record compressor := Compressor {
  compress : compression -> string -> string;
  decompress : compression -> string -> option string
}.

(** The globals of the module at call time. *)
Record env := Env {
  json : json_module;
  msgpack : option msgpack_module;
  YAML : option yaml_class;
  zlib : compressor
}.

(** The states the module can be in once it has been imported:
    [from ruamel.yaml import YAML] has succeeded and nothing rebinds the
    name, so [YAML] is not [None]. *)
Definition imported (E : env) : Prop := is_Some (YAML E).

(** ** Files, handles and the I/O trace *)

Inductive mode := RB | RT | WB | WT.

Definition is_write (m : mode) : bool :=
  match m with WB | WT => true | RB | RT => false end.

(** An open handle: for reading, [h_data] is the stored content seen at open
    time; for writing, the text written so far. *)
Record handle := Handle { h_path : string; h_mode : mode; h_data : string }.

Inductive event :=
| EvOpen (fd : nat) (path : string) (m : mode)
| EvRead (fd : nat)
| EvWrite (fd : nat) (data : string)
| EvClose (fd : nat).

Record world := World {
  files : gmap string string;
  denied : gset string;
  fds : gmap nat handle;
  trace : list event
}.

Definition io (A : Type) : Type := world -> result exn A * world.

Definition io_ret {A} (a : A) : io A := fun w => (Ok a, w).
Definition io_raise {A} (e : exn) : io A := fun w => (Raise e, w).
Definition io_bind {A B} (m : io A) (k : A -> io B) : io B := fun w =>
  match m w with
  | (Ok a, w1) => k a w1
  | (Raise e, w1) => (Raise e, w1)
  end.

(** A codec call: its exception, if any, propagates unchanged. *)
Definition call {A} (r : result codec_exn A) : io A := fun w =>
  match r with
  | Ok a => (Ok a, w)
  | Raise e => (Raise (Foreign e), w)
  end.

Notation "'let!' x ':=' m 'in' k" := (io_bind m (fun x => k))
  (at level 10, x name, m at level 100, k at level 200).

(** Modelled from the spec: the suffix test of [zopen] (monty.io), the Stream
    Provider that handles compressed files by their suffix; the suffixes are
    the ones the docstrings of [loadfn] and [dumpfn] name (BZ2, GZ, Z), case
    ignored. *)
Definition compression_of (fn : string) : compression :=
  let name := PyStr.lower fn in
  if PyStr.endswith name ".bz2" then Bzip2
  else if (PyStr.endswith name ".gz" || PyStr.endswith name ".z")%bool then Gzip
  else Plain.

(** Modelled from the spec: [zopen(fn, mode)] of monty.io, returning a
    readable or writable handle.  Reading needs an existing file; writing
    creates or truncates it.  A path in [denied] cannot be opened. *)
Definition zopen (fn : string) (m : mode) : io nat := fun w =>
  if decide (fn ∈ denied w) then (Raise (OSError "PermissionError"), w)
  else
    let fd := fresh (dom (fds w)) in
    if is_write m then
      (Ok fd, {| files := <[fn := EmptyString]> (files w); denied := denied w;
                 fds := <[fd := Handle fn m EmptyString]> (fds w);
                 trace := trace w ++ [EvOpen fd fn m] |})
    else
      match files w !! fn with
      | None => (Raise (OSError "FileNotFoundError"), w)
      | Some raw =>
          (Ok fd, {| files := files w; denied := denied w;
                     fds := <[fd := Handle fn m raw]> (fds w);
                     trace := trace w ++ [EvOpen fd fn m] |})
      end.

(** Leaving the [with] block: a written file gets its (compressed) content,
    the handle is dropped. *)
Definition fp_close (C : compressor) (fd : nat) (w : world) : world :=
  match fds w !! fd with
  | None => w
  | Some h =>
      {| files := if is_write (h_mode h)
                  then <[h_path h := compress C (compression_of (h_path h)) (h_data h)]> (files w)
                  else files w;
         denied := denied w;
         fds := delete fd (fds w);
         trace := trace w ++ [EvClose fd] |}
  end.

(** [fp.read()]: the whole decompressed content. *)
Definition fp_read (C : compressor) (fd : nat) : io string := fun w =>
  match fds w !! fd with
  | None => (Raise (OSError "I/O operation on closed file"), w)
  | Some h =>
      let w1 := {| files := files w; denied := denied w; fds := fds w;
                   trace := trace w ++ [EvRead fd] |} in
      match decompress C (compression_of (h_path h)) (h_data h) with
      | Some text => (Ok text, w1)
      | None => (Raise (OSError "not a valid compressed file"), w1)
      end
  end.

(** [fp.write(data)] *)
Definition fp_write (fd : nat) (data : string) : io unit := fun w =>
  match fds w !! fd with
  | None => (Raise (OSError "I/O operation on closed file"), w)
  | Some h =>
      (Ok tt, {| files := files w; denied := denied w;
                 fds := <[fd := Handle (h_path h) (h_mode h) (h_data h ++ data)]> (fds w);
                 trace := trace w ++ [EvWrite fd data] |})
  end.

(** [with zopen(fn, mode) as fp: body]: the handle is closed however the
    body ends. *)
Definition with_zopen {A} (C : compressor) (fn : string) (m : mode)
    (body : nat -> io A) : io A := fun w =>
  match zopen fn m w with
  | (Raise e, w1) => (Raise e, w1)
  | (Ok fp, w1) =>
      let '(r, w2) := body fp w1 in (r, fp_close C fp w2)
  end.

Definition newline : ascii := ascii_of_nat 10.
Definition nl : string := String newline EmptyString.

(** The lines a text stream yields when iterated ([for jline in fp]): each
    keeps its newline, the last one may lack it.  The stream is read as a
    whole and then cut into lines. *)
Fixpoint readlines (s : string) : list string :=
  match s with
  | EmptyString => []
  | String c r =>
      if Ascii.eqb c newline then String c EmptyString :: readlines r
      else match readlines r with
           | [] => [String c EmptyString]
           | l :: ls => String c l :: ls
           end
  end.

(** [for x in obj]: what iterating a value yields; [None] for a value that
    is not iterable.  The values of the data model are containers, which
    yield the same entries each time; a one-shot iterator, emptied by its
    first traversal, is not among them, so the properties below speak of a
    single traversal of a value. *)
Fixpoint chars (s : string) : list pyobj :=
  match s with
  | EmptyString => []
  | String c r => PyStr (String c EmptyString) :: chars r
  end.

Definition py_iter (obj : pyobj) : option (list pyobj) :=
  match obj with
  | PyList items => Some items
  | PyDict items => Some (map (fun kv => PyStr (fst kv)) items)
  | PyStr s => Some (chars s)
  | _ => None
  end.

(** Sequencing a list of codec calls, stopping at the first exception (a list
    comprehension over decodes). *)
Fixpoint traverse {A B} (f : A -> result codec_exn B) (l : list A)
    : result codec_exn (list B) :=
  match l with
  | [] => Ok []
  | x :: r =>
      match f x with
      | Raise e => Raise e
      | Ok y => match traverse f r with
                | Raise e => Raise e
                | Ok ys => Ok (y :: ys)
                end
      end
  end.

(** A [for] loop with an effectful body, stopping at the first exception. *)
Fixpoint for_each {A} (body : A -> io unit) (l : list A) : io unit :=
  match l with
  | [] => io_ret tt
  | x :: r => io_bind (body x) (fun _ => for_each body r)
  end.

(** [if key not in kwargs: kwargs[key] = value] *)
Definition setdefault (key : string) (value : pyobj) (kwargs : kwargs_t) : kwargs_t :=
  if decide (key ∈ dom kwargs) then kwargs else <[key := value]> kwargs.

(** [fmt or _identify_format(fn)]: a [None] or empty [fmt] is falsy. *)
Definition fmt_or (fmt : option string) (fn : string) : string :=
  match fmt with
  | Some s => if String.eqb s EmptyString then _identify_format fn else s
  | None => _identify_format fn
  end.

(** ** loadfn and dumpfn *)

Section Dispatch.

Variable E : env.

(** The body of [loadfn] once [fmt] is resolved. *)
Definition load_as (fmt : string) (fn : string) (args : list pyobj)
    (kwargs : kwargs_t) : io pyobj :=
  if String.eqb fmt "mpk" then
    match msgpack E with
    | None => io_raise msgpack_missing
    | Some mp =>
        let kwargs := setdefault "object_hook" object_hook kwargs in
        with_zopen (zlib E) fn RB (fun fp =>
          let! data := fp_read (zlib E) fp in
          call (msgpack_unpackb mp data args kwargs))
    end
  else
    with_zopen (zlib E) fn RT (fun fp =>
      if String.eqb fmt "yaml" then
        match YAML E with
        | None => io_raise yaml_missing
        | Some yaml =>
            let! data := fp_read (zlib E) fp in
            call (yaml_loads yaml data args kwargs)
        end
      else if (String.eqb fmt "json" || String.eqb fmt "jsonl")%bool then
        let kwargs := setdefault "cls" MontyDecoder kwargs in
        if String.eqb fmt "jsonl" then
          let! data := fp_read (zlib E) fp in
          let! values :=
            call (traverse (fun jline => json_loads (json E) jline args kwargs)
                           (readlines data)) in
          io_ret (PyList values)
        else
          let! data := fp_read (zlib E) fp in
          call (json_loads (json E) data args kwargs)
      else io_raise (InvalidFormat fmt)).

(** [loadfn(fn, *args, fmt=None, **kwargs)] *)
Definition loadfn (fn : string) (args : list pyobj) (fmt : option string)
    (kwargs : kwargs_t) : io pyobj :=
  let fmt := fmt_or fmt fn in
  load_as fmt fn args kwargs.

(** The body of [dumpfn] once [fmt] is resolved. *)
Definition dump_as (fmt : string) (obj : pyobj) (fn : string) (args : list pyobj)
    (kwargs : kwargs_t) : io unit :=
  if String.eqb fmt "mpk" then
    match msgpack E with
    | None => io_raise msgpack_missing
    | Some mp =>
        let kwargs := setdefault "default" default kwargs in
        with_zopen (zlib E) fn WB (fun fp =>
          let! data := call (msgpack_packb mp obj args kwargs) in
          fp_write fp data)
    end
  else
    with_zopen (zlib E) fn WT (fun fp =>
      if String.eqb fmt "yaml" then
        match YAML E with
        | None => io_raise yaml_missing
        | Some yaml =>
            let! data := call (yaml_dumps yaml obj args kwargs) in
            fp_write fp data
        end
      else if (String.eqb fmt "json" || String.eqb fmt "jsonl")%bool then
        let kwargs := setdefault "cls" MontyEncoder kwargs in
        if String.eqb fmt "jsonl" then
          match py_iter obj with
          | None => io_raise (TypeError "object is not iterable")
          | Some entries =>
              for_each (fun jobj =>
                let! text := call (json_dumps (json E) jobj args kwargs) in
                fp_write fp (text ++ nl)) entries
          end
        else
          let! text := call (json_dumps (json E) obj args kwargs) in
          fp_write fp text
      else io_raise (InvalidFormat fmt)).

(** [dumpfn(obj, fn, *args, fmt=None, **kwargs)] *)
Definition dumpfn (obj : pyobj) (fn : string) (args : list pyobj)
    (fmt : option string) (kwargs : kwargs_t) : io unit :=
  let fmt := fmt_or fmt fn in
  dump_as fmt obj fn args kwargs.

End Dispatch.

(** ** Reference libraries

    Small executable stand-ins for the external libraries, used to run the
    dispatcher on concrete calls.  They follow the text the real libraries
    produce on plain data (dicts with string keys, lists, strings, integers,
    booleans, [None]); the theorems below never depend on them, being stated
    for any [env]. *)

Module Ref.

Definition dquote : ascii := ascii_of_nat 34.
Definition backslash : ascii := ascii_of_nat 92.
Definition space : ascii := ascii_of_nat 32.

Definition join (sep : string) (l : list string) : string :=
  match l with
  | [] => EmptyString
  | x :: r => fold_left (fun acc y => acc ++ sep ++ y) r x
  end.

Fixpoint escape (s : string) : string :=
  match s with
  | EmptyString => EmptyString
  | String c r =>
      if Ascii.eqb c dquote then String backslash (String dquote (escape r))
      else if Ascii.eqb c backslash then String backslash (String backslash (escape r))
      else if Ascii.eqb c newline then String backslash (String "n" (escape r))
      else String c (escape r)
  end.

Definition quoted (s : string) : string :=
  String dquote (escape s ++ String dquote EmptyString).

Fixpoint spaces (n : nat) : string :=
  match n with O => EmptyString | S k => String space (spaces k) end.

(** What [json.dumps] can encode without a hook. *)
Fixpoint serializable (v : pyobj) : bool :=
  match v with
  | PyRef _ => false
  | PyList items => forallb serializable items
  | PyDict items => forallb (fun kv => serializable (snd kv)) items
  | _ => true
  end.

(** The text of [json.dumps(v, indent=indent)] at nesting depth [depth];
    [indent = None] is the compact single-line form. *)
Fixpoint encode (indent : option nat) (depth : nat) (v : pyobj) : string :=
  let opening :=
    match indent with
    | None => EmptyString
    | Some n => nl ++ spaces (n * S depth)
    end in
  let closing :=
    match indent with
    | None => EmptyString
    | Some n => nl ++ spaces (n * depth)
    end in
  let item_sep :=
    match indent with
    | None => ", "
    | Some n => "," ++ nl ++ spaces (n * S depth)
    end in
  match v with
  | PyNone => "null"
  | PyBool true => "true"
  | PyBool false => "false"
  | PyInt z => NilZero.string_of_int (Z.to_int z)
  | PyStr s => quoted s
  | PyList [] => "[]"
  | PyList items =>
      "[" ++ opening ++ join item_sep (map (encode indent (S depth)) items)
          ++ closing ++ "]"
  | PyDict [] => "{}"
  | PyDict items =>
      "{" ++ opening
          ++ join item_sep
               (map (fun kv => quoted (fst kv) ++ ": " ++ encode indent (S depth) (snd kv))
                    items)
          ++ closing ++ "}"
  | PyRef _ => "null"
  end.

Definition indent_of (kwargs : kwargs_t) : option nat :=
  match kwargs !! "indent" with
  | Some (PyInt n) => Some (Z.to_nat n)
  | _ => None
  end.

Definition not_serializable : codec_exn :=
  CodecExn "TypeError" "Object is not JSON serializable".

Definition dumps (v : pyobj) (args : list pyobj) (kwargs : kwargs_t)
    : result codec_exn string :=
  if serializable v then Ok (encode (indent_of kwargs) 0 v)
  else Raise not_serializable.

(** *** Reading JSON text *)

Definition is_ws (c : ascii) : bool :=
  let n := nat_of_ascii c in
  (Nat.eqb n 32 || Nat.eqb n 10 || Nat.eqb n 13 || Nat.eqb n 9)%bool.

Definition is_digit (c : ascii) : bool :=
  let n := nat_of_ascii c in (Nat.leb 48 n && Nat.leb n 57)%bool.

Fixpoint skip_ws (s : string) : string :=
  match s with
  | String c r => if is_ws c then skip_ws r else s
  | EmptyString => s
  end.

(** The body of a string literal, after its opening quote. *)
Fixpoint parse_string (s : string) : option (string * string) :=
  match s with
  | EmptyString => None
  | String c r =>
      if Ascii.eqb c dquote then Some (EmptyString, r)
      else if Ascii.eqb c backslash then
        match r with
        | String e r' =>
            let ch :=
              if Ascii.eqb e "n" then Some newline
              else if Ascii.eqb e dquote then Some dquote
              else if Ascii.eqb e backslash then Some backslash
              else None in
            match ch, parse_string r' with
            | Some ch, Some (t, rest) => Some (String ch t, rest)
            | _, _ => None
            end
        | EmptyString => None
        end
      else if Ascii.eqb c newline then None
      else
        match parse_string r with
        | Some (t, rest) => Some (String c t, rest)
        | None => None
        end
  end.

Fixpoint span_digits (s : string) : string * string :=
  match s with
  | String c r =>
      if is_digit c then let '(d, rest) := span_digits r in (String c d, rest)
      else (EmptyString, s)
  | EmptyString => (EmptyString, EmptyString)
  end.

Definition parse_int (s : string) : option (pyobj * string) :=
  let '(sign, body) :=
    match s with
    | String c r => if Ascii.eqb c "-" then ("-", r) else (EmptyString, s)
    | EmptyString => (EmptyString, s)
    end in
  let '(digits, rest) := span_digits body in
  match digits with
  | EmptyString => None
  | _ =>
      match NilZero.int_of_string (sign ++ digits) with
      | Some i => Some (PyInt (Z.of_int i), rest)
      | None => None
      end
  end.

Definition parse_literal (s : string) : option (pyobj * string) :=
  if String.prefix "null" s then Some (PyNone, PyStr.slice_from 4 s)
  else if String.prefix "true" s then Some (PyBool true, PyStr.slice_from 4 s)
  else if String.prefix "false" s then Some (PyBool false, PyStr.slice_from 5 s)
  else parse_int s.

Fixpoint parse_value (fuel : nat) (s : string) : option (pyobj * string) :=
  match fuel with
  | O => None
  | S fuel =>
      match skip_ws s with
      | EmptyString => None
      | String c r =>
          if Ascii.eqb c dquote then
            match parse_string r with
            | Some (t, rest) => Some (PyStr t, rest)
            | None => None
            end
          else if Ascii.eqb c "[" then
            match skip_ws r with
            | String "]" rest => Some (PyList [], rest)
            | _ =>
                match parse_items fuel r with
                | Some (vs, rest) => Some (PyList vs, rest)
                | None => None
                end
            end
          else if Ascii.eqb c "{" then
            match skip_ws r with
            | String "}" rest => Some (PyDict [], rest)
            | _ =>
                match parse_members fuel r with
                | Some (kvs, rest) => Some (PyDict kvs, rest)
                | None => None
                end
            end
          else parse_literal (String c r)
      end
  end
with parse_items (fuel : nat) (s : string) : option (list pyobj * string) :=
  match fuel with
  | O => None
  | S fuel =>
      match parse_value fuel s with
      | None => None
      | Some (v, rest) =>
          match skip_ws rest with
          | String "," rest' =>
              match parse_items fuel rest' with
              | Some (vs, rest'') => Some (v :: vs, rest'')
              | None => None
              end
          | String "]" rest' => Some ([v], rest')
          | _ => None
          end
      end
  end
with parse_members (fuel : nat) (s : string)
    : option (list (string * pyobj) * string) :=
  match fuel with
  | O => None
  | S fuel =>
      match skip_ws s with
      | String c r =>
          if Ascii.eqb c dquote then
            match parse_string r with
            | None => None
            | Some (k, rest) =>
                match skip_ws rest with
                | String ":" rest1 =>
                    match parse_value fuel rest1 with
                    | None => None
                    | Some (v, rest2) =>
                        match skip_ws rest2 with
                        | String "," rest3 =>
                            match parse_members fuel rest3 with
                            | Some (kvs, rest4) => Some ((k, v) :: kvs, rest4)
                            | None => None
                            end
                        | String "}" rest3 => Some ([(k, v)], rest3)
                        | _ => None
                        end
                    end
                | _ => None
                end
            end
          else None
      | EmptyString => None
      end
  end.

Definition decode_error : codec_exn :=
  CodecExn "json.decoder.JSONDecodeError" "Expecting value".

Definition parse (s : string) : option pyobj :=
  match parse_value (2 * String.length s + 2) s with
  | Some (v, rest) =>
      match skip_ws rest with
      | EmptyString => Some v
      | _ => None
      end
  | None => None
  end.

Definition loads (s : string) (args : list pyobj) (kwargs : kwargs_t)
    : result codec_exn pyobj :=
  match parse s with
  | Some v => Ok v
  | None => Raise decode_error
  end.

Definition json_ref : json_module := JsonModule dumps loads.

(** *** YAML

    A non-empty dict of plain words is written in block style, one
    [key: value] line per item; anything else in flow style, which is JSON
    text.  Reading accepts both. *)

Definition is_word_char (c : ascii) : bool :=
  let n := nat_of_ascii c in
  ((Nat.leb 97 n && Nat.leb n 122) || (Nat.leb 65 n && Nat.leb n 90)
   || Nat.eqb n 95)%bool.

Fixpoint all_chars (p : ascii -> bool) (s : string) : bool :=
  match s with
  | EmptyString => true
  | String c r => p c && all_chars p r
  end.

Definition reserved (s : string) : bool :=
  existsb (String.eqb (PyStr.lower s))
    ["null"; "true"; "false"; "yes"; "no"; "on"; "off"; "y"; "n"].

Definition plain_word (s : string) : bool :=
  (negb (String.eqb s EmptyString) && all_chars is_word_char s
   && negb (reserved s))%bool.

Definition block_item (kv : string * pyobj) : bool :=
  match snd kv with
  | PyStr v => plain_word (fst kv) && plain_word v
  | _ => false
  end.

Definition block_line (kv : string * pyobj) : string :=
  match snd kv with
  | PyStr v => fst kv ++ ": " ++ v ++ nl
  | _ => EmptyString
  end.

Definition represent_error : codec_exn :=
  CodecExn "ruamel.yaml.representer.RepresenterError" "cannot represent an object".

Definition yaml_dumps_ref (v : pyobj) (args : list pyobj) (kwargs : kwargs_t)
    : result codec_exn string :=
  let flow :=
    if serializable v then Ok (encode None 0 v ++ nl) else Raise represent_error in
  match v with
  | PyDict (kv :: kvs) =>
      if forallb block_item (kv :: kvs)
      then Ok (String.concat EmptyString (map block_line (kv :: kvs)))
      else flow
  | _ => flow
  end.

(** Splits [key: value] at the first colon followed by a space. *)
Fixpoint split_colon (s : string) : option (string * string) :=
  match s with
  | EmptyString => None
  | String c r =>
      if Ascii.eqb c ":" then
        match r with
        | String c' r' => if Ascii.eqb c' space then Some (EmptyString, r') else None
        | EmptyString => None
        end
      else
        match split_colon r with
        | Some (k, v) => Some (String c k, v)
        | None => None
        end
  end.

Fixpoint chomp (s : string) : string :=
  match s with
  | EmptyString => EmptyString
  | String c r =>
      match r with
      | EmptyString => if Ascii.eqb c newline then EmptyString else s
      | _ => String c (chomp r)
      end
  end.

Fixpoint block_items (ls : list string) : option (list (string * pyobj)) :=
  match ls with
  | [] => Some []
  | l :: r =>
      match split_colon (chomp l), block_items r with
      | Some (k, v), Some kvs =>
          if (plain_word k && plain_word v)%bool then Some ((k, PyStr v) :: kvs) else None
      | _, _ => None
      end
  end.

Definition scanner_error : codec_exn :=
  CodecExn "ruamel.yaml.scanner.ScannerError" "could not parse the document".

Definition yaml_loads_ref (s : string) (args : list pyobj) (kwargs : kwargs_t)
    : result codec_exn pyobj :=
  match readlines s with
  | [] => Ok PyNone
  | l :: ls =>
      match block_items (l :: ls) with
      | Some kvs => Ok (PyDict kvs)
      | None =>
          match parse s with
          | Some v => Ok v
          | None => Raise scanner_error
          end
      end
  end.

Definition yaml_ref : yaml_class := YamlClass yaml_dumps_ref yaml_loads_ref.

(** *** msgpack: the single-byte-header subset (nil, booleans, positive
    fixint, fixstr, fixarray, fixmap) *)

Definition byte (n : nat) : string := String (ascii_of_nat n) EmptyString.

Fixpoint packable (v : pyobj) : bool :=
  match v with
  | PyNone | PyBool _ => true
  | PyInt z => ((0 <=? z) && (z <? 128))%Z
  | PyStr s => Nat.ltb (String.length s) 32
  | PyList items => Nat.ltb (List.length items) 16 && forallb packable items
  | PyDict items =>
      Nat.ltb (List.length items) 16
      && forallb (fun kv => Nat.ltb (String.length (fst kv)) 32 && packable (snd kv)) items
  | PyRef _ => false
  end.

Fixpoint pack (v : pyobj) : string :=
  match v with
  | PyNone => byte 192
  | PyBool false => byte 194
  | PyBool true => byte 195
  | PyInt z => byte (Z.to_nat z)
  | PyStr s => byte (160 + String.length s) ++ s
  | PyList items =>
      byte (144 + List.length items) ++ String.concat EmptyString (map pack items)
  | PyDict items =>
      byte (128 + List.length items)
      ++ String.concat EmptyString
           (map (fun kv => byte (160 + String.length (fst kv)) ++ fst kv ++ pack (snd kv))
                items)
  | PyRef _ => EmptyString
  end.

Definition pack_error : codec_exn := CodecExn "TypeError" "can not serialize object".
Definition unpack_error : codec_exn :=
  CodecExn "msgpack.exceptions.UnpackException" "malformed input".

Definition packb (v : pyobj) (args : list pyobj) (kwargs : kwargs_t)
    : result codec_exn string :=
  if packable v then Ok (pack v) else Raise pack_error.

Fixpoint take_str (n : nat) (s : string) : option (string * string) :=
  match n, s with
  | O, _ => Some (EmptyString, s)
  | S k, String c r =>
      match take_str k r with
      | Some (t, rest) => Some (String c t, rest)
      | None => None
      end
  | S _, EmptyString => None
  end.

Fixpoint unpack (fuel : nat) (s : string) : option (pyobj * string) :=
  match fuel with
  | O => None
  | S fuel =>
      match s with
      | EmptyString => None
      | String c r =>
          let b := nat_of_ascii c in
          if Nat.ltb b 128 then Some (PyInt (Z.of_nat b), r)
          else if Nat.ltb b 144 then
            match unpack_pairs fuel (b - 128) r with
            | Some (kvs, rest) => Some (PyDict kvs, rest)
            | None => None
            end
          else if Nat.ltb b 160 then
            match unpack_seq fuel (b - 144) r with
            | Some (vs, rest) => Some (PyList vs, rest)
            | None => None
            end
          else if Nat.ltb b 192 then
            match take_str (b - 160) r with
            | Some (t, rest) => Some (PyStr t, rest)
            | None => None
            end
          else if Nat.eqb b 192 then Some (PyNone, r)
          else if Nat.eqb b 194 then Some (PyBool false, r)
          else if Nat.eqb b 195 then Some (PyBool true, r)
          else None
      end
  end
with unpack_seq (fuel n : nat) (s : string) : option (list pyobj * string) :=
  match fuel with
  | O => None
  | S fuel =>
      match n with
      | O => Some ([], s)
      | S k =>
          match unpack fuel s with
          | Some (v, rest) =>
              match unpack_seq fuel k rest with
              | Some (vs, rest') => Some (v :: vs, rest')
              | None => None
              end
          | None => None
          end
      end
  end
with unpack_pairs (fuel n : nat) (s : string)
    : option (list (string * pyobj) * string) :=
  match fuel with
  | O => None
  | S fuel =>
      match n with
      | O => Some ([], s)
      | S k =>
          match unpack fuel s with
          | Some (PyStr key, rest) =>
              match unpack fuel rest with
              | Some (v, rest') =>
                  match unpack_pairs fuel k rest' with
                  | Some (kvs, rest'') => Some ((key, v) :: kvs, rest'')
                  | None => None
                  end
              | None => None
              end
          | _ => None
          end
      end
  end.

Definition unpackb (s : string) (args : list pyobj) (kwargs : kwargs_t)
    : result codec_exn pyobj :=
  match unpack (2 * String.length s + 2) s with
  | Some (v, EmptyString) => Ok v
  | _ => Raise unpack_error
  end.

Definition msgpack_ref : msgpack_module := MsgpackModule packb unpackb.

(** *** Compression containers: the payload is stored as it is behind the
    magic number of the format (no entropy coding). *)

Definition magic (c : compression) : string :=
  match c with
  | Plain => EmptyString
  | Gzip => byte 31 ++ byte 139
  | Bzip2 => "BZh"
  end.

Definition store (c : compression) (s : string) : string := magic c ++ s.

Definition unstore (c : compression) (s : string) : option string :=
  if String.prefix (magic c) s
  then Some (PyStr.slice_from (String.length (magic c)) s)
  else None.

Definition zlib_ref : compressor := Compressor store unstore.

(** An installation with every library present, and one without msgpack. *)
Definition full_env : env := Env json_ref (Some msgpack_ref) (Some yaml_ref) zlib_ref.
Definition no_msgpack_env : env := Env json_ref None (Some yaml_ref) zlib_ref.

(** An empty directory with nothing open. *)
Definition empty_world : world := World ∅ ∅ ∅ [].

End Ref.

(** * Vocabulary of the properties

    From here on [++] is list concatenation; strings are joined with [+:+]. *)
Local Open Scope list_scope.

(** [sub] occurs in [s]: the meaning of Python's [sub in s]. *)
Definition occurs (sub s : string) : Prop :=
  exists pre post, s = pre +:+ sub +:+ post.

(** Occurrence up to case of a lower-case marker. *)
Definition occurs_ci (sub s : string) : Prop :=
  exists pre mid post, s = pre +:+ mid +:+ post /\ PyStr.lower mid = sub.

(** [c] occurs in [s]. *)
Fixpoint mem_char (c : ascii) (s : string) : bool :=
  match s with
  | EmptyString => false
  | String a r => Ascii.eqb a c || mem_char c r
  end.

(** [base] is the final component of the path [p]: what follows the last
    separator, or all of [p] when it has none. *)
Definition final_component (p base : string) : Prop :=
  mem_char sep base = false /\
  (p = base \/ exists dir, p = dir +:+ String sep base).

(** The tags the dispatcher knows. *)
Definition recognized : list string := ["json"; "jsonl"; "yaml"; "mpk"].

(** Reads and writes on the handle [fp]. *)
Definition rw_event (fp : nat) (ev : event) : Prop :=
  match ev with
  | EvRead fd | EvWrite fd _ => fd = fp
  | EvOpen _ _ _ | EvClose _ => False
  end.

(** [m] only reads or writes through [fp]: it leaves the files, every other
    handle, and the path and mode of [fp] as they are. *)
Definition confined {A} (fp : nat) (m : io A) : Prop :=
  forall w h, fds w !! fp = Some h ->
  exists evs data,
    (m w).2 = {| files := files w; denied := denied w;
                 fds := <[fp := Handle (h_path h) (h_mode h) data]> (fds w);
                 trace := trace w ++ evs |}
    /\ Forall (rw_event fp) evs.

(** What a call may leave behind: nothing at all, or the trace of exactly
    one handle on [fn], fresh when opened, only read or written in between
    and closed last, with the table of open handles as it was before. *)
Definition one_handle (fn : string) (w w' : world) : Prop :=
  w' = w \/
  exists fp m evs,
    fds w !! fp = None /\ Forall (rw_event fp) evs /\
    trace w' = trace w ++ EvOpen fp fn m :: evs ++ [EvClose fp] /\
    fds w' = fds w.

(** [m] never raises the invalid-format error. *)
Definition no_invalid_format {A} (m : io A) : Prop :=
  forall w t, (m w).1 <> Raise (InvalidFormat t).

(** [m] never raises the missing-YAML error. *)
Definition no_yaml_missing {A} (m : io A) : Prop :=
  forall w, (m w).1 <> Raise yaml_missing.

(** The caller's view of a codec result. *)
Definition propagate {A} (r : result codec_exn A) : result exn A :=
  match r with
  | Ok a => Ok a
  | Raise e => Raise (Foreign e)
  end.

Definition map_result {A B} (f : A -> B) (r : result codec_exn A) : result codec_exn B :=
  match r with
  | Ok a => Ok (f a)
  | Raise e => Raise e
  end.

(** The world after a [with] block on [fn] that logged [evs] and, when
    writing, produced the text [data]. *)
Definition after_with (C : compressor) (fn : string) (m : mode) (data : string)
    (evs : list event) (w : world) : world :=
  let fp := fresh (dom (fds w)) in
  {| files := if is_write m
              then <[fn := compress C (compression_of fn) data]> (files w)
              else files w;
     denied := denied w;
     fds := fds w;
     trace := trace w ++ EvOpen fp fn m :: evs ++ [EvClose fp] |}.

(** The text of a JSON-Lines file: every entry followed by a newline. *)
Fixpoint jsonl_text (texts : list string) : string :=
  match texts with
  | [] => EmptyString
  | t :: rest => (t +:+ nl) +:+ jsonl_text rest
  end.

(** The values and texts of the concrete runs. *)
Definition hello : pyobj := PyDict [("hello", PyStr "world")].

Definition hello_json : string := Ref.encode None 0 hello.
Definition hello_yaml : string := "hello: world" +:+ nl.

Definition two_records : pyobj :=
  PyList [PyDict [("a", PyInt 1)]; PyDict [("b", PyInt 2)]].

Definition two_texts : list string :=
  [Ref.encode None 0 (PyDict [("a", PyInt 1)]); Ref.encode None 0 (PyDict [("b", PyInt 2)])].

(** A directory whose only file has a blank line between two values. *)
Definition blank_line_world : world :=
  World {["x.jsonl" := "1" +:+ nl +:+ nl +:+ "2" +:+ nl]} ∅ ∅ [].

(** A directory where [x.json] already holds some text. *)
Definition old_file_world : world :=
  World {["x.json" := "an older text"]} ∅ ∅ [].

(** Two worlds with the same files, unopenable paths and open handles:
    they differ at most in the trace of what happened before. *)
Definition same_store (w1 w2 : world) : Prop :=
  files w1 = files w2 /\ denied w1 = denied w2 /\ fds w1 = fds w2.

(** [m] does not look at the trace. *)
Definition trace_blind {A} (m : io A) : Prop :=
  forall w1 w2, same_store w1 w2 ->
  (m w1).1 = (m w2).1 /\ same_store (m w1).2 (m w2).2.

(** Two worlds that differ at most in the content of [fn] and in the trace. *)
Definition agree_off (fn : string) (w1 w2 : world) : Prop :=
  (forall p, p <> fn -> files w1 !! p = files w2 !! p) /\
  denied w1 = denied w2 /\ fds w1 = fds w2.

(** * Properties *)

(** ** Facts about the string primitives *)

Module PyStrFacts.
Import PyStr.

#[local] Arguments String.append !s1 s2 : simpl nomatch.

Lemma app_nil_r (s : string) : (s ++ EmptyString)%string = s.
Proof. induction s as [|c s IH]; simpl; [reflexivity | now rewrite IH]. Qed.

Lemma app_assoc (a b c : string) : ((a ++ b) ++ c)%string = (a ++ (b ++ c))%string.
Proof. induction a as [|x a IH]; simpl; [reflexivity | now rewrite IH]. Qed.

Lemma length_app (a b : string) :
  String.length (a ++ b) = (String.length a + String.length b)%nat.
Proof. induction a as [|x a IH]; simpl; [reflexivity | now rewrite IH]. Qed.

Lemma lower_app (a b : string) : lower (a ++ b) = (lower a ++ lower b)%string.
Proof. induction a as [|x a IH]; simpl; [reflexivity | now rewrite IH]. Qed.

(** Case folding never creates or removes a path separator. *)
Lemma lower_ascii_sep (c : ascii) : Ascii.eqb (lower_ascii c) sep = Ascii.eqb c sep.
Proof. destruct c as [[] [] [] [] [] [] [] []]; reflexivity. Qed.

(** A text that lower-cases to a concatenation splits the same way. *)
Lemma lower_split (s a b : string) :
  lower s = (a ++ b)%string ->
  exists a' b', s = (a' ++ b')%string /\ lower a' = a /\ lower b' = b.
Proof.
  revert s. induction a as [|x a IH]; intros s H.
  - exists EmptyString, s. auto.
  - destruct s as [|c s]; simpl in H; [discriminate|].
    injection H as Hx Hs. destruct (IH _ Hs) as (a' & b' & -> & <- & <-).
    exists (String c a'), b'. simpl. now rewrite Hx.
Qed.

Lemma prefix_spec (sub s : string) :
  String.prefix sub s = true <-> exists post, s = (sub ++ post)%string.
Proof.
  revert s. induction sub as [|a sub IH]; intros s.
  - destruct s; simpl; split; eauto.
  - destruct s as [|b s]; simpl.
    + split; [discriminate | intros [post H]; discriminate].
    + destruct (ascii_dec a b) as [->|Hne].
      * rewrite IH. split; intros [post H]; exists post; congruence.
      * split; [discriminate | intros [post H]; congruence].
Qed.

Lemma contains_nil (sub : string) :
  contains sub EmptyString = String.prefix sub EmptyString.
Proof. unfold contains. apply orb_false_r. Qed.

Lemma contains_cons (sub : string) (c : ascii) (s : string) :
  contains sub (String c s) = (String.prefix sub (String c s) || contains sub s)%bool.
Proof. reflexivity. Qed.

Lemma contains_spec (sub s : string) : contains sub s = true <-> occurs sub s.
Proof.
  induction s as [|c s IH].
  - rewrite contains_nil, prefix_spec. split.
    + intros [post H]. now exists EmptyString, post.
    + intros (pre & post & H). destruct pre; [now exists post | discriminate].
  - rewrite contains_cons, orb_true_iff, prefix_spec, IH. split.
    + intros [[post H] | (pre & post & H)].
      * now exists EmptyString, post.
      * exists (String c pre), post. simpl. now rewrite H.
    + intros (pre & post & H). destruct pre as [|x pre]; simpl in H.
      * left. now exists post.
      * right. exists pre, post. congruence.
Qed.

Lemma contains_false (sub s : string) : contains sub s = false <-> ~ occurs sub s.
Proof.
  rewrite <- contains_spec. destruct (contains sub s); split; congruence.
Qed.

Lemma occurs_lower (sub s : string) : occurs sub (lower s) <-> occurs_ci sub s.
Proof.
  split.
  - intros (pre & post & H).
    destruct (lower_split _ _ _ H) as (pre' & r & -> & _ & Hr).
    destruct (lower_split _ _ _ Hr) as (mid & post' & -> & Hm & _).
    now exists pre', mid, post'.
  - intros (pre & mid & post & -> & <-).
    exists (lower pre), (lower post). now rewrite !lower_app.
Qed.

Lemma mem_char_lower_sep (s : string) : mem_char sep (lower s) = mem_char sep s.
Proof.
  induction s as [|c s IH]; simpl; [reflexivity|].
  now rewrite lower_ascii_sep, IH.
Qed.

Lemma rfind_from_absent (c : ascii) (s : string) (i last : Z) :
  mem_char c s = false -> rfind_from c s i last = last.
Proof.
  revert i last. induction s as [|a s IH]; intros i last H; simpl in *; [reflexivity|].
  apply orb_false_iff in H as [Ha Hs]. rewrite Ha. now apply IH.
Qed.

Lemma rfind_from_last (c : ascii) (a b : string) (i last : Z) :
  mem_char c b = false ->
  rfind_from c (a ++ String c b) i last = (i + Z.of_nat (String.length a))%Z.
Proof.
  intros Hb. revert i last. induction a as [|x a IH]; intros i last; simpl.
  - rewrite Ascii.eqb_refl, rfind_from_absent by assumption. lia.
  - rewrite IH. lia.
Qed.

Lemma slice_from_app (a b : string) : slice_from (String.length a) (a ++ b) = b.
Proof. induction a as [|x a IH]; simpl; [now destruct b | assumption]. Qed.

(** Every text with a [c] splits at its last [c]. *)
Lemma split_last (c : ascii) (s : string) :
  mem_char c s = true ->
  exists a b, s = (a ++ String c b)%string /\ mem_char c b = false.
Proof.
  induction s as [|x s IH]; simpl; [discriminate|].
  destruct (mem_char c s) eqn:Hs.
  - intros _. destruct (IH eq_refl) as (a & b & -> & Hb).
    now exists (String x a), b.
  - rewrite orb_false_r. intros Hx. apply Ascii.eqb_eq in Hx as ->.
    now exists EmptyString, s.
Qed.

End PyStrFacts.

(** ** The format identifier *)

Section IdentifyFormat.
Import PyStr PyStrFacts.

Example identify_examples :
  _identify_format "monte_test.json.gz" = "json" /\
  _identify_format "monte_test.YML" = "yaml" /\
  _identify_format "thing.yaml/file.json" = "json" /\
  _identify_format "a/b/monte_test.jsonl.gz" = "jsonl" /\
  _identify_format "x.jsonl.mpk" = "mpk" /\
  _identify_format "jsonl.json" = "jsonl".
Proof. repeat split; reflexivity. Qed.

Lemma basename_final (p base : string) : final_component p base -> basename p = base.
Proof.
  intros [Hb [-> | [dir ->]]]; unfold basename, rfind.
  - now rewrite rfind_from_absent.
  - rewrite rfind_from_last by assumption.
    replace (Z.to_nat (0 + Z.of_nat (String.length dir) + 1))
      with (String.length (dir ++ String sep EmptyString)) by (rewrite length_app; simpl; lia).
    replace (dir ++ String sep base)%string
      with ((dir ++ String sep EmptyString) ++ base)%string by (now rewrite app_assoc).
    apply slice_from_app.
Qed.

Lemma final_component_basename (p : string) : final_component p (basename p).
Proof.
  destruct (mem_char sep p) eqn:Hp.
  - destruct (split_last _ _ Hp) as (a & b & -> & Hb).
    assert (Hf : final_component (a ++ String sep b) b) by (split; eauto).
    now rewrite (basename_final _ _ Hf).
  - assert (Hf : final_component p p) by (split; auto).
    now rewrite (basename_final _ _ Hf).
Qed.

Lemma basename_lower (p : string) : basename (lower p) = lower (basename p).
Proof.
  apply basename_final. destruct (final_component_basename p) as [Hb Hp].
  split; [now rewrite mem_char_lower_sep|].
  destruct Hp as [Hp | [dir Hp]].
  - left. now rewrite <- Hp.
  - right. exists (lower dir). rewrite Hp at 1. now rewrite lower_app.
Qed.

(** The decision list of [_identify_format], on the final component. *)
Lemma identify_format_unfold (p base : string) :
  final_component p base ->
  _identify_format p =
    if contains ".mpk" (lower base) then "mpk"
    else if (contains ".yaml" (lower base) || contains ".yml" (lower base))%bool then "yaml"
    else if contains "jsonl" (lower base) then "jsonl"
    else "json".
Proof.
  intros Hf. unfold _identify_format. rewrite (basename_final _ _ Hf). simpl.
  now rewrite orb_false_r.
Qed.

End IdentifyFormat.

Section IdentifyFormatSpec.
Import PyStr PyStrFacts.

Lemma identify_format_total (p : string) :
  _identify_format p ∈ ["json"; "jsonl"; "yaml"; "mpk"].
Proof.
  unfold _identify_format.
  repeat match goal with |- context [if ?b then _ else _] => destruct b end;
    set_solver.
Qed.

Lemma identify_format_case_insensitive (p q : string) :
  lower p = lower q -> _identify_format p = _identify_format q.
Proof.
  intros H. unfold _identify_format.
  now rewrite <- !basename_lower, H.
Qed.

(** C3: the tag is decided by which markers occur, case ignored, in the
    final component [base] of the path [p], in the order [.mpk], then
    [.yaml] or [.yml], then [jsonl], then the fallback [json]; it is always
    one of the four tags, and any other path with the same final component,
    or the same spelling up to case, gets the same tag. *)
Theorem identify_format_spec (p base : string) :
  final_component p base ->
  (occurs_ci ".mpk" base -> _identify_format p = "mpk") /\
  (~ occurs_ci ".mpk" base ->
   occurs_ci ".yaml" base \/ occurs_ci ".yml" base ->
   _identify_format p = "yaml") /\
  (~ occurs_ci ".mpk" base -> ~ occurs_ci ".yaml" base -> ~ occurs_ci ".yml" base ->
   occurs_ci "jsonl" base ->
   _identify_format p = "jsonl") /\
  (~ occurs_ci ".mpk" base -> ~ occurs_ci ".yaml" base -> ~ occurs_ci ".yml" base ->
   ~ occurs_ci "jsonl" base ->
   _identify_format p = "json") /\
  _identify_format p ∈ ["json"; "jsonl"; "yaml"; "mpk"] /\
  (forall q, final_component q base -> _identify_format q = _identify_format p) /\
  (forall q, lower q = lower p -> _identify_format q = _identify_format p).
Proof.
  intros Hf. rewrite (identify_format_unfold _ _ Hf).
  repeat split.
  - intros H%occurs_lower%contains_spec. now rewrite H.
  - intros H1%(not_iff_compat (occurs_lower _ _))%contains_false H2. rewrite H1.
    destruct H2 as [H2%occurs_lower%contains_spec | H2%occurs_lower%contains_spec];
      rewrite H2; [reflexivity | now rewrite orb_true_r].
  - intros H1%(not_iff_compat (occurs_lower _ _))%contains_false
           H2%(not_iff_compat (occurs_lower _ _))%contains_false
           H3%(not_iff_compat (occurs_lower _ _))%contains_false
           H4%occurs_lower%contains_spec.
    now rewrite H1, H2, H3, H4.
  - intros H1%(not_iff_compat (occurs_lower _ _))%contains_false
           H2%(not_iff_compat (occurs_lower _ _))%contains_false
           H3%(not_iff_compat (occurs_lower _ _))%contains_false
           H4%(not_iff_compat (occurs_lower _ _))%contains_false.
    now rewrite H1, H2, H3, H4.
  - rewrite <- (identify_format_unfold _ _ Hf). apply identify_format_total.
  - intros q Hq. apply identify_format_unfold, Hq.
  - intros q Hq. rewrite <- (identify_format_unfold _ _ Hf).
    now apply identify_format_case_insensitive.
Qed.

(** A directory named [thing.yaml] holding [FILE.Json]. *)
Lemma identify_format_spec_witness :
  final_component "thing.yaml/FILE.Json" "FILE.Json" /\
  _identify_format "thing.yaml/FILE.Json" = "json" /\
  _identify_format "other.mpk/FILE.Json" = _identify_format "thing.yaml/FILE.Json".
Proof.
  assert (Hf : final_component "thing.yaml/FILE.Json" "FILE.Json").
  { split; [reflexivity | right; exists "thing.yaml"; reflexivity]. }
  destruct (identify_format_spec "thing.yaml/FILE.Json" "FILE.Json" Hf)
    as (_ & _ & _ & _ & _ & Hdir & _).
  split; [exact Hf | split; [reflexivity |]].
  apply Hdir. split; [reflexivity | right; exists "other.mpk"; reflexivity].
Defined.

End IdentifyFormatSpec.

(** ** Actions confined to one open handle *)

Section Confined.

Lemma confined_pure {A} (fp : nat) (m : io A) :
  (forall w, (m w).2 = w) -> confined fp m.
Proof.
  intros Hm w h Hh. exists [], (h_data h). split; [|constructor].
  rewrite Hm, app_nil_r. destruct w as [fs dn hs tr], h as [p md dt]; simpl in *.
  now rewrite insert_id.
Qed.

Lemma confined_ret {A} (fp : nat) (a : A) : confined fp (io_ret a).
Proof. now apply confined_pure. Qed.

Lemma confined_raise {A} (fp : nat) (e : exn) : confined fp (@io_raise A e).
Proof. now apply confined_pure. Qed.

Lemma confined_call {A} (fp : nat) (r : result codec_exn A) : confined fp (call r).
Proof. apply confined_pure. intros w. now destruct r. Qed.

Lemma confined_read (C : compressor) (fp : nat) : confined fp (fp_read C fp).
Proof.
  intros w h Hh. exists [EvRead fp], (h_data h). split; [|repeat constructor].
  unfold fp_read. rewrite Hh. destruct h as [p md dt]; simpl.
  rewrite insert_id by assumption. now destruct (decompress C _ _).
Qed.

Lemma confined_write (fp : nat) (data : string) : confined fp (fp_write fp data).
Proof.
  intros w h Hh. exists [EvWrite fp data], (h_data h ++ data)%string.
  split; [|repeat constructor]. unfold fp_write. now rewrite Hh.
Qed.

Lemma confined_bind {A B} (fp : nat) (m : io A) (k : A -> io B) :
  confined fp m -> (forall a, confined fp (k a)) -> confined fp (io_bind m k).
Proof.
  intros Hm Hk w h Hh. destruct (Hm w h Hh) as (evs & data & Hw & Hevs).
  unfold io_bind. destruct (m w) as [[a|e] w1]; simpl in Hw.
  - destruct (Hk a w1 (Handle (h_path h) (h_mode h) data))
      as (evs' & data' & Hw' & Hevs').
    { rewrite Hw. apply lookup_insert_eq. }
    exists (evs ++ evs'), data'. split; [|now apply Forall_app].
    simpl. rewrite Hw'. subst w1. simpl. now rewrite insert_insert_eq, app_assoc.
  - now exists evs, data.
Qed.

Lemma confined_for_each {A} (fp : nat) (body : A -> io unit) (l : list A) :
  (forall a, confined fp (body a)) -> confined fp (for_each body l).
Proof.
  intros Hb. induction l as [|x l IH]; simpl.
  - apply confined_ret.
  - apply confined_bind; auto.
Qed.

(** [with] opens one handle, runs the body and closes that handle whatever
    the body returned; a failed open leaves everything as it was. *)
Lemma with_zopen_scoped {A} (C : compressor) (fn : string) (m : mode)
    (body : nat -> io A) (w : world) :
  (forall fp, confined fp (body fp)) ->
  ((with_zopen C fn m body w).2 = w /\
   exists msg, (with_zopen C fn m body w).1 = Raise (OSError msg)) \/
  (exists fp evs data,
     fds w !! fp = None /\ Forall (rw_event fp) evs /\
     (with_zopen C fn m body w).2 =
       {| files := if is_write m
                   then <[fn := compress C (compression_of fn) data]> (files w)
                   else files w;
          denied := denied w;
          fds := fds w;
          trace := trace w ++ EvOpen fp fn m :: evs ++ [EvClose fp] |}).
Proof.
  intros Hbody. unfold with_zopen, zopen.
  destruct (decide (fn ∈ denied w)); [left; simpl; eauto|].
  set (fp := fresh (dom (fds w))).
  assert (Hfresh : fds w !! fp = None).
  { apply not_elem_of_dom, is_fresh. }
  destruct (is_write m) eqn:Hm.
  - right.
    match goal with |- context [body fp ?w1] =>
      destruct (Hbody fp w1 (Handle fn m EmptyString)) as (evs & data & Hw & Hevs);
        [apply lookup_insert_eq|]
    end.
    destruct (body fp _) as [r w2]; simpl in Hw; subst w2.
    exists fp, evs, data. split; [assumption|]. split; [assumption|].
    unfold fp_close; simpl. rewrite lookup_insert_eq; simpl. rewrite Hm.
    rewrite !insert_insert_eq, delete_insert_id by assumption.
    now rewrite <- !app_assoc.
  - destruct (files w !! fn) as [raw|] eqn:Hraw; [|left; simpl; eauto].
    right.
    match goal with |- context [body fp ?w1] =>
      destruct (Hbody fp w1 (Handle fn m raw)) as (evs & data & Hw & Hevs);
        [apply lookup_insert_eq|]
    end.
    destruct (body fp _) as [r w2]; simpl in Hw; subst w2.
    exists fp, evs, data. split; [assumption|]. split; [assumption|].
    unfold fp_close; simpl. rewrite lookup_insert_eq; simpl. rewrite Hm.
    rewrite !insert_insert_eq, delete_insert_id by assumption.
    now rewrite <- !app_assoc.
Qed.

End Confined.

Create HintDb confined.
#[global] Hint Resolve confined_ret confined_raise confined_call confined_read
  confined_write confined_bind confined_for_each : confined.

(** ** One handle per call *)

Section Handles.

Variable E : env.

Lemma load_body_confined (fmt : string) (args : list pyobj) (kwargs : kwargs_t)
    (fp : nat) :
  confined fp
    (if String.eqb fmt "yaml" then
       match YAML E with
       | None => io_raise yaml_missing
       | Some yaml =>
           let! data := fp_read (zlib E) fp in
           call (yaml_loads yaml data args kwargs)
       end
     else if (String.eqb fmt "json" || String.eqb fmt "jsonl")%bool then
       let kwargs := setdefault "cls" MontyDecoder kwargs in
       if String.eqb fmt "jsonl" then
         let! data := fp_read (zlib E) fp in
         let! values :=
           call (traverse (fun jline => json_loads (json E) jline args kwargs)
                          (readlines data)) in
         io_ret (PyList values)
       else
         let! data := fp_read (zlib E) fp in
         call (json_loads (json E) data args kwargs)
     else io_raise (InvalidFormat fmt)).
Proof.
  repeat match goal with
         | |- context [if ?b then _ else _] => destruct b
         | |- context [match ?o with Some _ => _ | None => _ end] => destruct o
         end; cbv zeta; auto 10 with confined.
Qed.

Lemma dump_body_confined (fmt : string) (obj : pyobj) (args : list pyobj)
    (kwargs : kwargs_t) (fp : nat) :
  confined fp
    (if String.eqb fmt "yaml" then
       match YAML E with
       | None => io_raise yaml_missing
       | Some yaml =>
           let! data := call (yaml_dumps yaml obj args kwargs) in
           fp_write fp data
       end
     else if (String.eqb fmt "json" || String.eqb fmt "jsonl")%bool then
       let kwargs := setdefault "cls" MontyEncoder kwargs in
       if String.eqb fmt "jsonl" then
         match py_iter obj with
         | None => io_raise (TypeError "object is not iterable")
         | Some entries =>
             for_each (fun jobj =>
               let! text := call (json_dumps (json E) jobj args kwargs) in
               fp_write fp (text +:+ nl)) entries
         end
       else
         let! text := call (json_dumps (json E) obj args kwargs) in
         fp_write fp text
     else io_raise (InvalidFormat fmt)).
Proof.
  repeat match goal with
         | |- context [if ?b then _ else _] => destruct b
         | |- context [match ?o with Some _ => _ | None => _ end] => destruct o
         end; cbv zeta; auto 10 with confined.
Qed.

Lemma with_zopen_one_handle {A} (fn : string) (m : mode) (body : nat -> io A)
    (w : world) :
  (forall fp, confined fp (body fp)) ->
  one_handle fn w (with_zopen (zlib E) fn m body w).2.
Proof.
  intros Hb. destruct (with_zopen_scoped (zlib E) fn m body w Hb)
    as [[Hw _] | (fp & evs & data & Hfp & Hevs & Hw)].
  - now left.
  - right. exists fp, m, evs. rewrite Hw. auto.
Qed.

(** C9: whatever [loadfn] or [dumpfn] returns, value or exception, the call
    either opened nothing or opened exactly one handle, used only that one,
    and closed it before returning; no handle stays open. *)
Theorem one_handle_per_call (obj : pyobj) (fn : string) (args : list pyobj)
    (fmt : option string) (kwargs : kwargs_t) (w : world) :
  one_handle fn w (loadfn E fn args fmt kwargs w).2 /\
  one_handle fn w (dumpfn E obj fn args fmt kwargs w).2.
Proof.
  unfold loadfn, dumpfn, load_as, dump_as. cbv zeta.
  split; destruct (String.eqb (fmt_or fmt fn) "mpk").
  - destruct (msgpack E); [|now left].
    apply with_zopen_one_handle. auto with confined.
  - apply with_zopen_one_handle, load_body_confined.
  - destruct (msgpack E); [|now left].
    apply with_zopen_one_handle. auto with confined.
  - apply with_zopen_one_handle, dump_body_confined.
Qed.

End Handles.

(** ** Unknown and missing formats *)

Section Rejection.

Variable E : env.

Lemma unrecognized_eqb (t : string) :
  t ∉ recognized ->
  String.eqb t "mpk" = false /\ String.eqb t "yaml" = false /\
  String.eqb t "json" = false /\ String.eqb t "jsonl" = false.
Proof.
  unfold recognized. rewrite !not_elem_of_cons. intros (H1 & H2 & H3 & H4 & _).
  repeat split; now apply String.eqb_neq.
Qed.

Lemma fmt_or_explicit (t fn : string) : t <> EmptyString -> fmt_or (Some t) fn = t.
Proof. intros H. unfold fmt_or. now apply String.eqb_neq in H as ->. Qed.

(** A body that raises at once, in a [with] block on a readable file. *)
Lemma with_zopen_read_raise {A} (C : compressor) (fn : string) (m : mode)
    (e : exn) (w : world) (raw : string) :
  is_write m = false -> fn ∉ denied w -> files w !! fn = Some raw ->
  with_zopen C fn m (fun _ => @io_raise A e) w =
    (Raise e,
     {| files := files w; denied := denied w; fds := fds w;
        trace := trace w ++ [EvOpen (fresh (dom (fds w))) fn m;
                             EvClose (fresh (dom (fds w)))] |}).
Proof.
  intros Hm Hd Hf. unfold with_zopen, zopen, io_raise, fp_close.
  rewrite decide_False, Hm, Hf by assumption. simpl.
  rewrite lookup_insert_eq. simpl. rewrite Hm, delete_insert_id, <- app_assoc.
  - reflexivity.
  - apply not_elem_of_dom, is_fresh.
Qed.

(** The same in a [with] block that writes: the file is created, or
    truncated, and left empty. *)
Lemma with_zopen_write_raise {A} (C : compressor) (fn : string) (m : mode)
    (e : exn) (w : world) :
  is_write m = true -> fn ∉ denied w ->
  with_zopen C fn m (fun _ => @io_raise A e) w =
    (Raise e,
     {| files := <[fn := compress C (compression_of fn) EmptyString]> (files w);
        denied := denied w; fds := fds w;
        trace := trace w ++ [EvOpen (fresh (dom (fds w))) fn m;
                             EvClose (fresh (dom (fds w)))] |}).
Proof.
  intros Hm Hd. unfold with_zopen, zopen, io_raise, fp_close.
  rewrite decide_False, Hm by assumption. simpl.
  rewrite lookup_insert_eq. simpl.
  rewrite Hm, insert_insert_eq, delete_insert_id, <- app_assoc.
  - reflexivity.
  - apply not_elem_of_dom, is_fresh.
Qed.

Lemma with_zopen_denied {A} (C : compressor) (fn : string) (m : mode)
    (body : nat -> io A) (w : world) :
  fn ∈ denied w ->
  with_zopen C fn m body w = (Raise (OSError "PermissionError"), w).
Proof. intros Hd. unfold with_zopen, zopen. now rewrite decide_True. Qed.

Lemma with_zopen_missing {A} (C : compressor) (fn : string) (m : mode)
    (body : nat -> io A) (w : world) :
  is_write m = false -> fn ∉ denied w -> files w !! fn = None ->
  with_zopen C fn m body w = (Raise (OSError "FileNotFoundError"), w).
Proof.
  intros Hm Hd Hf. unfold with_zopen, zopen.
  now rewrite decide_False, Hm, Hf.
Qed.

(** C1, as the code has it: a non-empty tag outside the four known ones is
    rejected only after the path has been opened in text mode.  A failed
    open propagates its own error; otherwise the call raises the
    invalid-format error with no read or write in between and closes the
    handle, and for [dumpfn] the target has by then been created or
    truncated.  Resolution from the file name never yields an unknown tag. *)
Theorem invalid_format_after_open (obj : pyobj) (fn : string) (args : list pyobj)
    (kwargs : kwargs_t) (t : string) (w : world) :
  t ∉ recognized -> t <> EmptyString ->
  let fp := fresh (dom (fds w)) in
  (fn ∈ denied w ->
   loadfn E fn args (Some t) kwargs w = (Raise (OSError "PermissionError"), w) /\
   dumpfn E obj fn args (Some t) kwargs w = (Raise (OSError "PermissionError"), w)) /\
  (fn ∉ denied w -> files w !! fn = None ->
   loadfn E fn args (Some t) kwargs w = (Raise (OSError "FileNotFoundError"), w)) /\
  (fn ∉ denied w -> is_Some (files w !! fn) ->
   loadfn E fn args (Some t) kwargs w =
     (Raise (InvalidFormat t),
      {| files := files w; denied := denied w; fds := fds w;
         trace := trace w ++ [EvOpen fp fn RT; EvClose fp] |})) /\
  (fn ∉ denied w ->
   dumpfn E obj fn args (Some t) kwargs w =
     (Raise (InvalidFormat t),
      {| files := <[fn := compress (zlib E) (compression_of fn) EmptyString]> (files w);
         denied := denied w; fds := fds w;
         trace := trace w ++ [EvOpen fp fn WT; EvClose fp] |})) /\
  _identify_format fn ∈ recognized.
Proof.
  intros Ht Hne fp. destruct (unrecognized_eqb t Ht) as (H1 & H2 & H3 & H4).
  unfold loadfn, dumpfn, load_as, dump_as. cbv zeta.
  rewrite (fmt_or_explicit t fn Hne), H1, H2, H3, H4. simpl.
  repeat split.
  - now apply with_zopen_denied.
  - now apply with_zopen_denied.
  - intros Hd Hf. now apply with_zopen_missing.
  - intros Hd [raw Hf]. now apply (with_zopen_read_raise _ _ _ _ _ raw).
  - intros Hd. now apply with_zopen_write_raise.
  - apply identify_format_total.
Qed.

End Rejection.

(** ** Concrete runs *)

Section Runs.
Import Ref.

Lemma garbage_unrecognized : "garbage" ∉ recognized.
Proof. unfold recognized. rewrite !not_elem_of_cons. repeat split; try discriminate. apply not_elem_of_nil. Qed.

(** [dumpfn(d, "monte_test.txt", fmt="garbage")] in an empty directory. *)
Lemma invalid_format_after_open_witness :
  ("garbage" ∉ recognized) /\ "garbage" <> EmptyString /\
  dumpfn full_env hello "monte_test.txt" [] (Some "garbage") ∅ empty_world =
    (Raise (InvalidFormat "garbage"),
     {| files := <["monte_test.txt" := EmptyString]> ∅; denied := ∅; fds := ∅;
        trace := [EvOpen 0 "monte_test.txt" WT; EvClose 0] |}).
Proof.
  split; [exact garbage_unrecognized | split; [discriminate|]].
  destruct (invalid_format_after_open full_env hello "monte_test.txt" [] ∅ "garbage"
              empty_world garbage_unrecognized)
    as (_ & _ & _ & Hdump & _); [discriminate|].
  apply Hdump. vm_compute. discriminate.
Defined.

(** C1 fails as stated: with the tag [garbage], [dumpfn] has opened and
    created the target by the time it raises, and [loadfn] on a missing
    file raises the file error, not the invalid-format error. *)
Lemma invalid_format_counterexample :
  (dumpfn full_env hello "monte_test.txt" [] (Some "garbage") ∅ empty_world).1
    = Raise (InvalidFormat "garbage") /\
  trace (dumpfn full_env hello "monte_test.txt" [] (Some "garbage") ∅ empty_world).2
    = [EvOpen 0 "monte_test.txt" WT; EvClose 0] /\
  files empty_world !! "monte_test.txt" = None /\
  files (dumpfn full_env hello "monte_test.txt" [] (Some "garbage") ∅ empty_world).2
    !! "monte_test.txt" = Some EmptyString /\
  (loadfn full_env "monte_test.txt" [] (Some "garbage") ∅ empty_world).1
    = Raise (OSError "FileNotFoundError").
Proof. repeat split; vm_compute; reflexivity. Qed.

End Runs.

(** ** Calls that cannot raise the invalid-format error *)

Section NoInvalidFormat.

Lemma nif_ret {A} (a : A) : no_invalid_format (io_ret a).
Proof. intros w t. discriminate. Qed.

Lemma nif_call {A} (r : result codec_exn A) : no_invalid_format (call r).
Proof. intros w t. destruct r; discriminate. Qed.

Lemma nif_read (C : compressor) (fp : nat) : no_invalid_format (fp_read C fp).
Proof.
  intros w t. unfold fp_read. destruct (fds w !! fp); [|discriminate].
  destruct (decompress C _ _); discriminate.
Qed.

Lemma nif_write (fp : nat) (data : string) : no_invalid_format (fp_write fp data).
Proof. intros w t. unfold fp_write. destruct (fds w !! fp); discriminate. Qed.

Lemma nif_runtime {A} (msg : string) : no_invalid_format (@io_raise A (RuntimeError msg)).
Proof. intros w t. discriminate. Qed.

Lemma nif_not_iterable {A} :
  no_invalid_format (@io_raise A (TypeError "object is not iterable")).
Proof. intros w t. unfold InvalidFormat. simpl. intros H. inversion H. Qed.

Lemma nif_bind {A B} (m : io A) (k : A -> io B) :
  no_invalid_format m -> (forall a, no_invalid_format (k a)) ->
  no_invalid_format (io_bind m k).
Proof.
  intros Hm Hk w t. unfold io_bind. specialize (Hm w t).
  destruct (m w) as [[a|e] w1]; simpl in *.
  - apply Hk.
  - intros [=H]. apply Hm. now rewrite H.
Qed.

Lemma nif_for_each {A} (body : A -> io unit) (l : list A) :
  (forall a, no_invalid_format (body a)) -> no_invalid_format (for_each body l).
Proof.
  intros Hb. induction l as [|x l IH]; simpl.
  - apply nif_ret.
  - apply nif_bind; auto.
Qed.

Lemma nif_with_zopen {A} (C : compressor) (fn : string) (m : mode)
    (body : nat -> io A) :
  (forall fp, no_invalid_format (body fp)) ->
  no_invalid_format (with_zopen C fn m body).
Proof.
  intros Hb w t. unfold with_zopen, zopen.
  destruct (decide (fn ∈ denied w)); [discriminate|].
  destruct (is_write m).
  - match goal with |- context [body ?fp ?w1] =>
      specialize (Hb fp w1 t); destruct (body fp w1) end.
    exact Hb.
  - destruct (files w !! fn); [|discriminate].
    match goal with |- context [body ?fp ?w1] =>
      specialize (Hb fp w1 t); destruct (body fp w1) end.
    exact Hb.
Qed.

End NoInvalidFormat.

Create HintDb nif.
#[global] Hint Resolve nif_ret nif_call nif_read nif_write nif_runtime
  nif_not_iterable nif_bind nif_for_each nif_with_zopen : nif.

Section Falsy.

Variable E : env.

Ltac nif_cases :=
  repeat match goal with
         | |- no_invalid_format (match ?o with Some _ => _ | None => _ end) => destruct o
         | |- forall _, _ => intro
         end;
  unfold msgpack_missing, yaml_missing; auto 10 with nif.

Lemma load_as_recognized (tag fn : string) (args : list pyobj) (kwargs : kwargs_t) :
  tag ∈ recognized -> no_invalid_format (load_as E tag fn args kwargs).
Proof.
  unfold recognized. rewrite !elem_of_cons, elem_of_nil.
  intros [-> | [-> | [-> | [-> | []]]]]; unfold load_as; simpl.
  - apply nif_with_zopen. nif_cases.
  - apply nif_with_zopen. nif_cases.
  - apply nif_with_zopen. nif_cases.
  - nif_cases.
Qed.

Lemma dump_as_recognized (tag : string) (obj : pyobj) (fn : string)
    (args : list pyobj) (kwargs : kwargs_t) :
  tag ∈ recognized -> no_invalid_format (dump_as E tag obj fn args kwargs).
Proof.
  unfold recognized. rewrite !elem_of_cons, elem_of_nil.
  intros [-> | [-> | [-> | [-> | []]]]]; unfold dump_as; simpl.
  - apply nif_with_zopen. nif_cases.
  - apply nif_with_zopen. nif_cases.
  - apply nif_with_zopen. nif_cases.
  - nif_cases.
Qed.

(** C10: an empty [fmt] is falsy, so [fmt or _identify_format(fn)] falls
    back to the file name: the call is the one made with no [fmt] at all,
    and it never raises the invalid-format error. *)
Theorem falsy_format_rederived (obj : pyobj) (fn : string) (args : list pyobj)
    (kwargs : kwargs_t) (w : world) :
  fmt_or (Some EmptyString) fn = _identify_format fn /\
  loadfn E fn args (Some EmptyString) kwargs w = loadfn E fn args None kwargs w /\
  dumpfn E obj fn args (Some EmptyString) kwargs w = dumpfn E obj fn args None kwargs w /\
  (forall t, (loadfn E fn args (Some EmptyString) kwargs w).1 <> Raise (InvalidFormat t)) /\
  (forall t, (dumpfn E obj fn args (Some EmptyString) kwargs w).1 <> Raise (InvalidFormat t)).
Proof.
  repeat split; try reflexivity; intros t.
  - apply load_as_recognized, identify_format_total.
  - apply dump_as_recognized, identify_format_total.
Qed.

(** X12: with msgpack absent the [mpk] branch raises before any file is
    opened: the world is untouched. *)
Lemma msgpack_missing_before_open (obj : pyobj) (fn : string) (args : list pyobj)
    (fmt : option string) (kwargs : kwargs_t) (w : world) :
  msgpack E = None -> fmt_or fmt fn = "mpk" ->
  loadfn E fn args fmt kwargs w = (Raise msgpack_missing, w) /\
  dumpfn E obj fn args fmt kwargs w = (Raise msgpack_missing, w).
Proof.
  intros Hm Hf. unfold loadfn, dumpfn, load_as, dump_as. cbv zeta.
  now rewrite Hf, Hm.
Qed.

End Falsy.

(** ** Missing libraries *)

Section Missing.

Lemma nym_ret {A} (a : A) : no_yaml_missing (io_ret a).
Proof. intros w. discriminate. Qed.

Lemma nym_call {A} (r : result codec_exn A) : no_yaml_missing (call r).
Proof. intros w. destruct r; discriminate. Qed.

Lemma nym_read (C : compressor) (fp : nat) : no_yaml_missing (fp_read C fp).
Proof.
  intros w. unfold fp_read. destruct (fds w !! fp); [|discriminate].
  destruct (decompress C _ _); discriminate.
Qed.

Lemma nym_write (fp : nat) (data : string) : no_yaml_missing (fp_write fp data).
Proof. intros w. unfold fp_write. destruct (fds w !! fp); discriminate. Qed.

Lemma nym_type_error {A} (msg : string) : no_yaml_missing (@io_raise A (TypeError msg)).
Proof. intros w. discriminate. Qed.

Lemma nym_msgpack_missing {A} : no_yaml_missing (@io_raise A msgpack_missing).
Proof. intros w. discriminate. Qed.

Lemma nym_bind {A B} (m : io A) (k : A -> io B) :
  no_yaml_missing m -> (forall a, no_yaml_missing (k a)) ->
  no_yaml_missing (io_bind m k).
Proof.
  intros Hm Hk w. unfold io_bind. specialize (Hm w).
  destruct (m w) as [[a|e] w1]; simpl in *.
  - apply Hk.
  - intros [=H]. apply Hm. now rewrite H.
Qed.

Lemma nym_for_each {A} (body : A -> io unit) (l : list A) :
  (forall a, no_yaml_missing (body a)) -> no_yaml_missing (for_each body l).
Proof.
  intros Hb. induction l as [|x l IH]; simpl.
  - apply nym_ret.
  - apply nym_bind; auto.
Qed.

Lemma nym_with_zopen {A} (C : compressor) (fn : string) (m : mode)
    (body : nat -> io A) :
  (forall fp, no_yaml_missing (body fp)) ->
  no_yaml_missing (with_zopen C fn m body).
Proof.
  intros Hb w. unfold with_zopen, zopen.
  destruct (decide (fn ∈ denied w)); [discriminate|].
  destruct (is_write m).
  - match goal with |- context [body ?fp ?w1] =>
      specialize (Hb fp w1); destruct (body fp w1) end.
    exact Hb.
  - destruct (files w !! fn); [|discriminate].
    match goal with |- context [body ?fp ?w1] =>
      specialize (Hb fp w1); destruct (body fp w1) end.
    exact Hb.
Qed.

End Missing.

Create HintDb nym.
#[global] Hint Resolve nym_ret nym_call nym_read nym_write nym_type_error
  nym_msgpack_missing nym_bind nym_for_each nym_with_zopen : nym.

Section Unavailable.

Variable E : env.

Lemma load_as_no_yaml_missing (tag fn : string) (args : list pyobj)
    (kwargs : kwargs_t) :
  imported E -> no_yaml_missing (load_as E tag fn args kwargs).
Proof.
  intros [yaml Hy]. unfold load_as. rewrite Hy.
  repeat match goal with
         | |- context [if ?b then _ else _] => destruct b
         | |- context [match ?o with Some _ => _ | None => _ end] => destruct o
         | |- no_yaml_missing (with_zopen _ _ _ _) => apply nym_with_zopen; intros fp
         end; unfold InvalidFormat; auto 10 with nym.
Qed.

Lemma dump_as_no_yaml_missing (tag : string) (obj : pyobj) (fn : string)
    (args : list pyobj) (kwargs : kwargs_t) :
  imported E -> no_yaml_missing (dump_as E tag obj fn args kwargs).
Proof.
  intros [yaml Hy]. unfold dump_as. rewrite Hy.
  repeat match goal with
         | |- context [if ?b then _ else _] => destruct b
         | |- context [match ?o with Some _ => _ | None => _ end] => destruct o
         | |- no_yaml_missing (with_zopen _ _ _ _) => apply nym_with_zopen; intros fp
         end; unfold InvalidFormat; auto 10 with nym.
Qed.


End Unavailable.

(** ** What each branch does on a file that opens *)

Section Paths.

Lemma call_run {A} (r : result codec_exn A) (w : world) : call r w = (propagate r, w).
Proof. now destruct r. Qed.

Lemma fresh_fd_free (w : world) : fds w !! fresh (dom (fds w)) = None.
Proof. apply not_elem_of_dom, is_fresh. Qed.

(** Read everything, then compute without further I/O. *)
Lemma with_zopen_read_pure {A} (C : compressor) (fn : string) (m : mode)
    (k : string -> io A) (res : string -> result exn A) (w : world)
    (raw text : string) :
  (forall data w', k data w' = (res data, w')) ->
  is_write m = false -> fn ∉ denied w -> files w !! fn = Some raw ->
  decompress C (compression_of fn) raw = Some text ->
  with_zopen C fn m (fun fp => io_bind (fp_read C fp) k) w =
    (res text, after_with C fn m EmptyString [EvRead (fresh (dom (fds w)))] w).
Proof.
  intros Hk Hm Hd Hf Hz. unfold with_zopen, zopen, after_with.
  rewrite decide_False, Hm, Hf by assumption.
  unfold io_bind, fp_read. simpl. rewrite lookup_insert_eq. simpl.
  rewrite Hz, Hk. unfold fp_close. simpl. rewrite lookup_insert_eq. simpl.
  rewrite Hm, delete_insert_id by apply fresh_fd_free.
  now rewrite <- !app_assoc.
Qed.

(** Encode, then write the text in one call. *)
Lemma with_zopen_write_once (C : compressor) (fn : string) (m : mode)
    (r : result codec_exn string) (w : world) :
  is_write m = true -> fn ∉ denied w ->
  with_zopen C fn m (fun fp => io_bind (call r) (fun data => fp_write fp data)) w =
    match r with
    | Ok data =>
        (Ok tt, after_with C fn m data [EvWrite (fresh (dom (fds w))) data] w)
    | Raise e => (Raise (Foreign e), after_with C fn m EmptyString [] w)
    end.
Proof.
  intros Hm Hd. unfold with_zopen, zopen, after_with.
  rewrite decide_False, Hm by assumption.
  unfold io_bind, call, fp_write, fp_close. destruct r as [data|e]; simpl.
  - rewrite lookup_insert_eq. simpl. rewrite lookup_insert_eq. simpl.
    rewrite Hm, !insert_insert_eq, delete_insert_id by apply fresh_fd_free.
    now rewrite <- !app_assoc.
  - rewrite lookup_insert_eq. simpl.
    rewrite Hm, !insert_insert_eq, delete_insert_id by apply fresh_fd_free.
    now rewrite <- !app_assoc.
Qed.

(** The loop of the JSON-Lines writer when every entry encodes. *)
Lemma for_each_write_all {A} (enc : A -> result codec_exn string) (fp : nat)
    (entries : list A) (texts : list string) (w : world) (h : handle) :
  Forall2 (fun e t => enc e = Ok t) entries texts ->
  fds w !! fp = Some h ->
  for_each (fun jobj => io_bind (call (enc jobj))
                          (fun text => fp_write fp (text +:+ nl))) entries w =
    (Ok tt,
     {| files := files w; denied := denied w;
        fds := <[fp := Handle (h_path h) (h_mode h) (h_data h +:+ jsonl_text texts)]> (fds w);
        trace := trace w ++ map (fun t => EvWrite fp (t +:+ nl)) texts |}).
Proof.
  intros HF. revert w h. induction HF as [|e t entries texts He HF IH]; intros w h Hh.
  - simpl. unfold io_ret.
    rewrite PyStrFacts.app_nil_r, app_nil_r.
    destruct w, h; simpl in *. now rewrite insert_id.
  - simpl. unfold io_bind at 1. rewrite He. unfold call at 1, io_bind at 1, fp_write at 1.
    rewrite Hh. erewrite IH by (simpl; apply lookup_insert_eq). simpl.
    rewrite insert_insert_eq, <- app_assoc. simpl.
    now rewrite !PyStrFacts.app_assoc.
Qed.

End Paths.

Section Branches.

Variable E : env.
Variables (fn : string) (args : list pyobj) (kwargs : kwargs_t) (w : world).

Let fp := fresh (dom (fds w)).
Let codec := compression_of fn.

Section Reading.

Variables (raw text : string).
Hypothesis Hallowed : fn ∉ denied w.
Hypothesis Hfile : files w !! fn = Some raw.
Hypothesis Htext : decompress (zlib E) codec raw = Some text.

Lemma load_mpk_run (mp : msgpack_module) :
  msgpack E = Some mp ->
  load_as E "mpk" fn args kwargs w =
    (propagate (msgpack_unpackb mp text args (setdefault "object_hook" object_hook kwargs)),
     after_with (zlib E) fn RB EmptyString [EvRead fp] w).
Proof.
  intros Hmp.
  change (load_as E "mpk" fn args kwargs) with
    (match msgpack E with
     | None => io_raise msgpack_missing
     | Some mp =>
         with_zopen (zlib E) fn RB (fun fp =>
           io_bind (fp_read (zlib E) fp)
             (fun data => call (msgpack_unpackb mp data args
                                  (setdefault "object_hook" object_hook kwargs))))
     end).
  rewrite Hmp.
  eapply (with_zopen_read_pure _ _ _ _
            (fun data => propagate (msgpack_unpackb mp data args _))); eauto.
  intros. apply call_run.
Qed.

Lemma load_yaml_run (yaml : yaml_class) :
  YAML E = Some yaml ->
  load_as E "yaml" fn args kwargs w =
    (propagate (yaml_loads yaml text args kwargs),
     after_with (zlib E) fn RT EmptyString [EvRead fp] w).
Proof.
  intros Hy.
  change (load_as E "yaml" fn args kwargs) with
    (with_zopen (zlib E) fn RT (fun fp =>
       match YAML E with
       | None => io_raise yaml_missing
       | Some yaml =>
           io_bind (fp_read (zlib E) fp)
             (fun data => call (yaml_loads yaml data args kwargs))
       end)).
  rewrite Hy.
  eapply (with_zopen_read_pure _ _ _ _
            (fun data => propagate (yaml_loads yaml data args kwargs))); eauto.
  intros. apply call_run.
Qed.

Lemma load_json_run :
  load_as E "json" fn args kwargs w =
    (propagate (json_loads (json E) text args (setdefault "cls" MontyDecoder kwargs)),
     after_with (zlib E) fn RT EmptyString [EvRead fp] w).
Proof.
  change (load_as E "json" fn args kwargs) with
    (with_zopen (zlib E) fn RT (fun fp =>
       io_bind (fp_read (zlib E) fp)
         (fun data => call (json_loads (json E) data args
                              (setdefault "cls" MontyDecoder kwargs))))).
  eapply (with_zopen_read_pure _ _ _ _
            (fun data => propagate (json_loads (json E) data args _))); eauto.
  intros. apply call_run.
Qed.

Lemma load_jsonl_run :
  load_as E "jsonl" fn args kwargs w =
    (propagate
       (map_result PyList
          (traverse (fun jline => json_loads (json E) jline args
                                    (setdefault "cls" MontyDecoder kwargs))
                    (readlines text))),
     after_with (zlib E) fn RT EmptyString [EvRead fp] w).
Proof.
  change (load_as E "jsonl" fn args kwargs) with
    (with_zopen (zlib E) fn RT (fun fp =>
       io_bind (fp_read (zlib E) fp)
         (fun data =>
            io_bind
              (call (traverse (fun jline => json_loads (json E) jline args
                                              (setdefault "cls" MontyDecoder kwargs))
                              (readlines data)))
              (fun values => io_ret (PyList values))))).
  eapply (with_zopen_read_pure _ _ _ _
            (fun data => propagate (map_result PyList (traverse _ (readlines data)))));
    eauto.
  intros data w'. unfold io_bind, call, io_ret. now destruct (traverse _ _).
Qed.

End Reading.

Section Writing.

Variable obj : pyobj.
Hypothesis Hallowed : fn ∉ denied w.

Lemma dump_mpk_run (mp : msgpack_module) :
  msgpack E = Some mp ->
  dump_as E "mpk" obj fn args kwargs w =
    match msgpack_packb mp obj args (setdefault "default" default kwargs) with
    | Ok data => (Ok tt, after_with (zlib E) fn WB data [EvWrite fp data] w)
    | Raise e => (Raise (Foreign e), after_with (zlib E) fn WB EmptyString [] w)
    end.
Proof.
  intros Hmp.
  change (dump_as E "mpk" obj fn args kwargs) with
    (match msgpack E with
     | None => io_raise msgpack_missing
     | Some mp =>
         with_zopen (zlib E) fn WB (fun fp =>
           io_bind (call (msgpack_packb mp obj args (setdefault "default" default kwargs)))
             (fun data => fp_write fp data))
     end).
  rewrite Hmp. now apply with_zopen_write_once.
Qed.

Lemma dump_yaml_run (yaml : yaml_class) :
  YAML E = Some yaml ->
  dump_as E "yaml" obj fn args kwargs w =
    match yaml_dumps yaml obj args kwargs with
    | Ok data => (Ok tt, after_with (zlib E) fn WT data [EvWrite fp data] w)
    | Raise e => (Raise (Foreign e), after_with (zlib E) fn WT EmptyString [] w)
    end.
Proof.
  intros Hy.
  change (dump_as E "yaml" obj fn args kwargs) with
    (with_zopen (zlib E) fn WT (fun fp =>
       match YAML E with
       | None => io_raise yaml_missing
       | Some yaml =>
           io_bind (call (yaml_dumps yaml obj args kwargs)) (fun data => fp_write fp data)
       end)).
  rewrite Hy. now apply with_zopen_write_once.
Qed.

Lemma dump_json_run :
  dump_as E "json" obj fn args kwargs w =
    match json_dumps (json E) obj args (setdefault "cls" MontyEncoder kwargs) with
    | Ok data => (Ok tt, after_with (zlib E) fn WT data [EvWrite fp data] w)
    | Raise e => (Raise (Foreign e), after_with (zlib E) fn WT EmptyString [] w)
    end.
Proof.
  change (dump_as E "json" obj fn args kwargs) with
    (with_zopen (zlib E) fn WT (fun fp =>
       io_bind (call (json_dumps (json E) obj args (setdefault "cls" MontyEncoder kwargs)))
         (fun data => fp_write fp data))).
  now apply with_zopen_write_once.
Qed.

Lemma dump_jsonl_run (entries : list pyobj) (texts : list string) :
  py_iter obj = Some entries ->
  Forall2 (fun e t => json_dumps (json E) e args (setdefault "cls" MontyEncoder kwargs) = Ok t)
          entries texts ->
  dump_as E "jsonl" obj fn args kwargs w =
    (Ok tt,
     after_with (zlib E) fn WT (jsonl_text texts)
       (map (fun t => EvWrite fp (t +:+ nl)) texts) w).
Proof.
  intros Hit HF.
  change (dump_as E "jsonl" obj fn args kwargs) with
    (with_zopen (zlib E) fn WT (fun fp =>
       match py_iter obj with
       | None => io_raise (TypeError "object is not iterable")
       | Some entries =>
           for_each (fun jobj =>
             io_bind (call (json_dumps (json E) jobj args
                              (setdefault "cls" MontyEncoder kwargs)))
               (fun text => fp_write fp (text +:+ nl))) entries
       end)).
  rewrite Hit. unfold with_zopen, zopen, after_with.
  rewrite decide_False by assumption. simpl.
  erewrite for_each_write_all; [|eassumption|apply lookup_insert_eq].
  unfold fp_close. simpl. rewrite lookup_insert_eq. simpl.
  rewrite !insert_insert_eq, delete_insert_id by apply fresh_fd_free.
  now rewrite <- !app_assoc.
Qed.

End Writing.

End Branches.

(** ** JSON Lines *)

Section JsonLines.
Import PyStrFacts.

Lemma traverse_Forall2 {A B} (f : A -> result codec_exn B) (l : list A) (ys : list B) :
  traverse f l = Ok ys <-> Forall2 (fun x y => f x = Ok y) l ys.
Proof.
  revert ys. induction l as [|x l IH]; intros ys; simpl.
  - split.
    + intros [= <-]. constructor.
    + intros H. now inversion H.
  - destruct (f x) as [y|e] eqn:Hx.
    + destruct (traverse f l) as [ys'|e] eqn:Hl.
      * split.
        -- intros [= <-]. constructor; [assumption | now apply IH].
        -- intros H. inversion H as [|? y' ? ys'' Hy Hys]; subst.
           apply IH in Hys. congruence.
      * split; [discriminate|].
        intros H. inversion H as [|? y' ? ys'' Hy Hys]; subst.
        apply IH in Hys. discriminate.
    + split; [discriminate|].
      intros H. inversion H; congruence.
Qed.

(** A line without a newline inside, followed by its newline, is read back
    as one line. *)
Lemma readlines_line (t rest : string) :
  mem_char newline t = false ->
  readlines ((t +:+ nl) +:+ rest) = (t +:+ nl) :: readlines rest.
Proof.
  induction t as [|c t IH]; intros Ht.
  - reflexivity.
  - simpl in Ht. apply orb_false_iff in Ht as [Hc Ht].
    change (readlines ((String c t +:+ nl) +:+ rest))
      with (if Ascii.eqb c newline
            then String c EmptyString :: readlines ((t +:+ nl) +:+ rest)
            else match readlines ((t +:+ nl) +:+ rest) with
                 | [] => [String c EmptyString]
                 | l :: ls => String c l :: ls
                 end).
    now rewrite Hc, IH.
Qed.

Lemma readlines_jsonl_text (texts : list string) :
  Forall (fun t => mem_char newline t = false) texts ->
  readlines (jsonl_text texts) = map (fun t => t +:+ nl) texts.
Proof.
  induction 1 as [|t texts Ht _ IH]; [reflexivity|].
  simpl. now rewrite readlines_line, IH.
Qed.

End JsonLines.

(** ** The dispatcher's contract *)

Section Contract.
Import PyStrFacts.

Variable E : env.

(** C8: on a file that opens and decompresses to [text], [loadfn] in
    JSON-Lines mode decodes the lines the stream yields one by one: when
    every line decodes, the result is the list of the decoded values, one
    per line and in the order of the lines; and any value it returns is
    such a list. *)
Theorem load_jsonl_lines (fn : string) (args : list pyobj) (fmt : option string)
    (kwargs : kwargs_t) (w : world) (raw text : string) :
  fmt_or fmt fn = "jsonl" ->
  fn ∉ denied w ->
  files w !! fn = Some raw ->
  decompress (zlib E) (compression_of fn) raw = Some text ->
  let decode := fun jline =>
    json_loads (json E) jline args (setdefault "cls" MontyDecoder kwargs) in
  let lines := readlines text in
  (forall values,
     Forall2 (fun jline v => decode jline = Ok v) lines values ->
     (loadfn E fn args fmt kwargs w).1 = Ok (PyList values) /\
     length values = length lines) /\
  (forall v,
     (loadfn E fn args fmt kwargs w).1 = Ok v ->
     exists values,
       v = PyList values /\ Forall2 (fun jline v => decode jline = Ok v) lines values).
Proof.
  intros Hfmt Hd Hf Hz decode lines. unfold loadfn. cbv zeta.
  rewrite Hfmt, (load_jsonl_run E fn args kwargs w raw text Hd Hf Hz). simpl.
  fold decode. fold lines. split.
  - intros values HF. split; [|symmetry; eapply Forall2_length, HF].
    apply traverse_Forall2 in HF. now rewrite HF.
  - intros v Hv. destruct (traverse decode lines) as [values|e] eqn:Ht;
      [|discriminate].
    injection Hv as <-. exists values. split; [reflexivity|].
    now apply traverse_Forall2.
Qed.

(** C7, as the code has it: when every entry encodes, [dumpfn] in
    JSON-Lines mode makes one write per entry, in order, each the text of
    the entry followed by one newline, and the file holds their
    concatenation.  When no encoded text contains a newline, the file reads
    back as exactly one line per entry, with nothing after the last. *)
Theorem dump_jsonl_writes (obj : pyobj) (fn : string) (args : list pyobj)
    (fmt : option string) (kwargs : kwargs_t) (w : world)
    (entries : list pyobj) (texts : list string) :
  fmt_or fmt fn = "jsonl" ->
  fn ∉ denied w ->
  py_iter obj = Some entries ->
  Forall2 (fun e t => json_dumps (json E) e args (setdefault "cls" MontyEncoder kwargs) = Ok t)
          entries texts ->
  let fp := fresh (dom (fds w)) in
  let r := dumpfn E obj fn args fmt kwargs w in
  r.1 = Ok tt /\
  trace r.2 =
    trace w ++ EvOpen fp fn WT :: map (fun t => EvWrite fp (t +:+ nl)) texts ++ [EvClose fp] /\
  length (map (fun t => EvWrite fp (t +:+ nl)) texts) = length entries /\
  files r.2 !! fn = Some (compress (zlib E) (compression_of fn) (jsonl_text texts)) /\
  (Forall (fun t => mem_char newline t = false) texts ->
   readlines (jsonl_text texts) = map (fun t => t +:+ nl) texts /\
   length (readlines (jsonl_text texts)) = length entries).
Proof.
  intros Hfmt Hd Hit HF fp r. subst r. unfold dumpfn. cbv zeta.
  rewrite Hfmt, (dump_jsonl_run E fn args kwargs w obj Hd entries texts Hit HF).
  simpl. repeat split.
  - rewrite length_map. symmetry. eapply Forall2_length, HF.
  - apply lookup_insert_eq.
  - now apply readlines_jsonl_text.
  - rewrite readlines_jsonl_text, length_map by assumption.
    symmetry. eapply Forall2_length, HF.
Qed.

(** C2, as the code has it: for a path the identifier resolves to [json] or
    to [yaml], a value [d] that the codec of that format writes as [text]
    and reads back from [text], and a compression that restores [text],
    [dumpfn(d, path)] succeeds and [loadfn(path)] then returns [d]. *)
Theorem dump_load_roundtrip (d : pyobj) (fn : string) (w : world) (text : string) :
  fn ∉ denied w ->
  decompress (zlib E) (compression_of fn)
    (compress (zlib E) (compression_of fn) text) = Some text ->
  (_identify_format fn = "json" /\
   json_dumps (json E) d [] (setdefault "cls" MontyEncoder ∅) = Ok text /\
   json_loads (json E) text [] (setdefault "cls" MontyDecoder ∅) = Ok d) \/
  (_identify_format fn = "yaml" /\
   exists yaml, YAML E = Some yaml /\
     yaml_dumps yaml d [] ∅ = Ok text /\ yaml_loads yaml text [] ∅ = Ok d) ->
  (dumpfn E d fn [] None ∅ w).1 = Ok tt /\
  (loadfn E fn [] None ∅ (dumpfn E d fn [] None ∅ w).2).1 = Ok d.
Proof.
  intros Hd Hz [(Hfmt & Henc & Hdec) | (Hfmt & yaml & Hy & Henc & Hdec)];
    unfold loadfn, dumpfn; cbv zeta; unfold fmt_or; rewrite Hfmt.
  - rewrite (dump_json_run E fn [] ∅ w d Hd), Henc. split; [reflexivity|].
    erewrite load_json_run; [| exact Hd | apply lookup_insert_eq | exact Hz].
    simpl. now rewrite Hdec.
  - rewrite (dump_yaml_run E fn [] ∅ w d Hd yaml Hy), Henc. split; [reflexivity|].
    erewrite load_yaml_run; [| exact Hd | apply lookup_insert_eq | exact Hz | exact Hy].
    simpl. now rewrite Hdec.
Qed.

(** C5, as the code has it: a non-empty [fmt] is the tag the call runs
    with, whatever the file name says; with no [fmt] the tag is the one
    [_identify_format] gives.  After [dumpfn(d, fn, fmt="yaml")] on a name
    that resolves to [json], a plain [loadfn(fn)] raises what the JSON
    decoder raises on the YAML text, and [loadfn(fn, fmt="yaml")] returns
    [d]. *)
Theorem explicit_format_used (obj : pyobj) (fn : string) (args : list pyobj)
    (kwargs : kwargs_t) (t : string) (w : world) :
  t <> EmptyString ->
  fmt_or (Some t) fn = t /\
  fmt_or None fn = _identify_format fn /\
  loadfn E fn args (Some t) kwargs w = load_as E t fn args kwargs w /\
  dumpfn E obj fn args (Some t) kwargs w = dump_as E t obj fn args kwargs w /\
  loadfn E fn args None kwargs w = load_as E (_identify_format fn) fn args kwargs w /\
  dumpfn E obj fn args None kwargs w = dump_as E (_identify_format fn) obj fn args kwargs w /\
  (forall yaml text e,
     _identify_format fn = "json" ->
     fn ∉ denied w ->
     YAML E = Some yaml ->
     yaml_dumps yaml obj [] ∅ = Ok text ->
     yaml_loads yaml text [] ∅ = Ok obj ->
     json_loads (json E) text [] (setdefault "cls" MontyDecoder ∅) = Raise e ->
     decompress (zlib E) (compression_of fn)
       (compress (zlib E) (compression_of fn) text) = Some text ->
     (dumpfn E obj fn [] (Some "yaml") ∅ w).1 = Ok tt /\
     (loadfn E fn [] None ∅ (dumpfn E obj fn [] (Some "yaml") ∅ w).2).1
       = Raise (Foreign e) /\
     (loadfn E fn [] (Some "yaml") ∅ (dumpfn E obj fn [] (Some "yaml") ∅ w).2).1
       = Ok obj).
Proof.
  intros Hne. unfold loadfn, dumpfn. cbv zeta.
  rewrite (fmt_or_explicit t fn Hne).
  do 6 (split; [reflexivity|]).
  intros yaml text e Hfmt Hd Hy Henc Hdec Hjson Hz.
  unfold fmt_or. simpl. rewrite Hfmt.
  rewrite (dump_yaml_run E fn [] ∅ w obj Hd yaml Hy), Henc.
  split; [|split].
  - reflexivity.
  - erewrite load_json_run; [| exact Hd | apply lookup_insert_eq | exact Hz].
    simpl. now rewrite Hjson.
  - erewrite load_yaml_run; [| exact Hd | apply lookup_insert_eq | exact Hz | exact Hy].
    simpl. now rewrite Hdec.
Qed.

(** C6: the codec gets the caller's options with the default hook or class
    added under its option name only when that name is absent: a value the
    caller put there, whatever it is, is passed on unchanged.  This holds
    for [object_hook] on msgpack reads, [default] on msgpack writes, and
    [cls] on JSON and JSON-Lines reads and writes. *)
Theorem defaults_only_when_absent (obj : pyobj) (fn : string) (args : list pyobj)
    (fmt : option string) (kwargs : kwargs_t) (w : world) :
  fn ∉ denied w ->
  let tag := fmt_or fmt fn in
  let load := loadfn E fn args fmt kwargs w in
  let dump := dumpfn E obj fn args fmt kwargs w in
  (forall key dflt,
     (kwargs !! key = None -> setdefault key dflt kwargs = <[key := dflt]> kwargs) /\
     (forall v, kwargs !! key = Some v -> setdefault key dflt kwargs = kwargs)) /\
  (forall raw text,
     files w !! fn = Some raw ->
     decompress (zlib E) (compression_of fn) raw = Some text ->
     (forall mp, tag = "mpk" -> msgpack E = Some mp ->
        load.1 = propagate (msgpack_unpackb mp text args
                              (setdefault "object_hook" object_hook kwargs))) /\
     (tag = "json" ->
        load.1 = propagate (json_loads (json E) text args
                              (setdefault "cls" MontyDecoder kwargs))) /\
     (tag = "jsonl" ->
        load.1 = propagate (map_result PyList
                   (traverse (fun jline => json_loads (json E) jline args
                                             (setdefault "cls" MontyDecoder kwargs))
                             (readlines text))))) /\
  (forall mp, tag = "mpk" -> msgpack E = Some mp ->
     dump.1 = propagate (map_result (fun _ => tt)
                (msgpack_packb mp obj args (setdefault "default" default kwargs))) /\
     forall data,
       msgpack_packb mp obj args (setdefault "default" default kwargs) = Ok data ->
       files dump.2 !! fn = Some (compress (zlib E) (compression_of fn) data)) /\
  (tag = "json" ->
     dump.1 = propagate (map_result (fun _ => tt)
                (json_dumps (json E) obj args (setdefault "cls" MontyEncoder kwargs))) /\
     forall data,
       json_dumps (json E) obj args (setdefault "cls" MontyEncoder kwargs) = Ok data ->
       files dump.2 !! fn = Some (compress (zlib E) (compression_of fn) data)) /\
  (tag = "jsonl" ->
     forall entries texts,
       py_iter obj = Some entries ->
       Forall2 (fun e t => json_dumps (json E) e args
                             (setdefault "cls" MontyEncoder kwargs) = Ok t)
               entries texts ->
       dump.1 = Ok tt /\
       files dump.2 !! fn
         = Some (compress (zlib E) (compression_of fn) (jsonl_text texts))).
Proof.
  intros Hd tag load dump. subst tag load dump. unfold loadfn, dumpfn. cbv zeta.
  split; [|split; [|split; [|split]]].
  - intros key dflt. unfold setdefault. split.
    + intros Hk. rewrite decide_False; [reflexivity|]. now apply not_elem_of_dom.
    + intros v Hk. rewrite decide_True; [reflexivity|]. apply elem_of_dom. eauto.
  - intros raw text Hf Hz. repeat split.
    + intros mp -> Hmp. now rewrite (load_mpk_run E fn args kwargs w raw text Hd Hf Hz mp Hmp).
    + intros ->. now rewrite (load_json_run E fn args kwargs w raw text Hd Hf Hz).
    + intros ->. now rewrite (load_jsonl_run E fn args kwargs w raw text Hd Hf Hz).
  - intros mp -> Hmp. rewrite (dump_mpk_run E fn args kwargs w obj Hd mp Hmp).
    split.
    + now destruct (msgpack_packb mp obj args _).
    + intros data ->. apply lookup_insert_eq.
  - intros ->. rewrite (dump_json_run E fn args kwargs w obj Hd). split.
    + now destruct (json_dumps (json E) obj args _).
    + intros data ->. apply lookup_insert_eq.
  - intros -> entries texts Hit HF.
    rewrite (dump_jsonl_run E fn args kwargs w obj Hd entries texts Hit HF).
    split; [reflexivity | apply lookup_insert_eq].
Qed.

End Contract.

(** ** Concrete runs of the contract *)

Section ContractRuns.
Import Ref.

Ltac allowed := vm_compute; discriminate.

(** Discharges the three premises of the round trip on a concrete call. *)
Ltac roundtrip_premises :=
  [> allowed
   | vm_compute; reflexivity
   | first [ left; repeat split; vm_compute; reflexivity
           | right; split; [vm_compute; reflexivity|];
             exists yaml_ref; split; [reflexivity|];
             split; vm_compute; reflexivity ] ].

(** The seven extensions of the test suite, in an empty directory. *)
Lemma dump_load_roundtrip_witness :
  Forall (fun fn =>
            (loadfn full_env fn [] None ∅
               (dumpfn full_env hello fn [] None ∅ empty_world).2).1 = Ok hello)
    ["monte_test.json"; "monte_test.yaml"; "monte_test.yml"; "monte_test.json.gz";
     "monte_test.yaml.gz"; "monte_test.json.bz2"; "monte_test.yaml.bz2"].
Proof.
  repeat apply Forall_cons_2; [..|apply Forall_nil_2].
  - refine (proj2 (dump_load_roundtrip full_env hello _ empty_world hello_json _ _ _));
      roundtrip_premises.
  - refine (proj2 (dump_load_roundtrip full_env hello _ empty_world hello_yaml _ _ _));
      roundtrip_premises.
  - refine (proj2 (dump_load_roundtrip full_env hello _ empty_world hello_yaml _ _ _));
      roundtrip_premises.
  - refine (proj2 (dump_load_roundtrip full_env hello _ empty_world hello_json _ _ _));
      roundtrip_premises.
  - refine (proj2 (dump_load_roundtrip full_env hello _ empty_world hello_yaml _ _ _));
      roundtrip_premises.
  - refine (proj2 (dump_load_roundtrip full_env hello _ empty_world hello_json _ _ _));
      roundtrip_premises.
  - refine (proj2 (dump_load_roundtrip full_env hello _ empty_world hello_yaml _ _ _));
      roundtrip_premises.
Defined.

(** C2 fails as stated: [jsonl.json] has the extension [.json], but its name
    contains [jsonl], so both calls run in JSON-Lines mode; dumping the
    mapping writes its keys, one per line, and loading returns the list of
    keys. *)
Lemma roundtrip_counterexample :
  _identify_format "jsonl.json" = "jsonl" /\
  compression_of "jsonl.json" = Plain /\
  (dumpfn full_env hello "jsonl.json" [] None ∅ empty_world).1 = Ok tt /\
  files (dumpfn full_env hello "jsonl.json" [] None ∅ empty_world).2 !! "jsonl.json"
    = Some (quoted "hello" +:+ nl) /\
  (loadfn full_env "jsonl.json" [] None ∅
     (dumpfn full_env hello "jsonl.json" [] None ∅ empty_world).2).1
    = Ok (PyList [PyStr "hello"]) /\
  PyList [PyStr "hello"] <> hello.
Proof. repeat split; try (vm_compute; reflexivity). discriminate. Qed.

(** The override scenario of the test suite. *)
Lemma explicit_format_used_witness :
  "yaml" <> EmptyString /\
  (dumpfn full_env hello "monte_test.json" [] (Some "yaml") ∅ empty_world).1 = Ok tt /\
  (loadfn full_env "monte_test.json" [] None ∅
     (dumpfn full_env hello "monte_test.json" [] (Some "yaml") ∅ empty_world).2).1
    = Raise (Foreign decode_error) /\
  (loadfn full_env "monte_test.json" [] (Some "yaml") ∅
     (dumpfn full_env hello "monte_test.json" [] (Some "yaml") ∅ empty_world).2).1
    = Ok hello.
Proof.
  assert (Hne : "yaml" <> EmptyString) by discriminate.
  split; [exact Hne|].
  destruct (explicit_format_used full_env hello "monte_test.json" [] ∅ "yaml"
              empty_world Hne) as (_ & _ & _ & _ & _ & _ & H).
  apply (H yaml_ref hello_yaml decode_error).
  - vm_compute. reflexivity.
  - allowed.
  - reflexivity.
  - vm_compute. reflexivity.
  - vm_compute. reflexivity.
  - vm_compute. reflexivity.
  - vm_compute. reflexivity.
Defined.

(** C5 fails as stated: an explicit but empty [fmt] is not used as the tag.
    On [x.yaml] the calls run as YAML and succeed, where the tag taken
    literally would be rejected.  And the malformed-content error of the
    override scenario depends on the value: the YAML writer emits the empty
    mapping as a pair of braces, which is JSON too, so the plain [loadfn]
    then returns it. *)
Lemma empty_format_counterexample :
  fmt_or (Some EmptyString) "x.yaml" = "yaml" /\
  (dumpfn full_env hello "x.yaml" [] (Some EmptyString) ∅ empty_world).1 = Ok tt /\
  files (dumpfn full_env hello "x.yaml" [] (Some EmptyString) ∅ empty_world).2 !! "x.yaml"
    = Some hello_yaml /\
  (loadfn full_env "x.yaml" [] (Some EmptyString) ∅
     (dumpfn full_env hello "x.yaml" [] (Some EmptyString) ∅ empty_world).2).1
    = Ok hello /\
  (dump_as full_env EmptyString hello "x.yaml" [] ∅ empty_world).1
    = Raise (InvalidFormat EmptyString) /\
  files (dumpfn full_env (PyDict []) "x.json" [] (Some "yaml") ∅ empty_world).2 !! "x.json"
    = Some ("{}" +:+ nl) /\
  (loadfn full_env "x.json" [] None ∅
     (dumpfn full_env (PyDict []) "x.json" [] (Some "yaml") ∅ empty_world).2).1
    = Ok (PyDict []).
Proof. repeat split; vm_compute; reflexivity. Qed.

(** [loadfn(fn, cls=None)]: the caller's [cls] stays. *)
Lemma defaults_only_when_absent_witness :
  ("monte_test.json" ∉ denied empty_world) /\
  setdefault "cls" MontyDecoder {["cls" := PyNone]} = {["cls" := PyNone]} /\
  setdefault "cls" MontyDecoder ∅ = {["cls" := MontyDecoder]} /\
  (dumpfn full_env hello "monte_test.json" [] None {["cls" := PyNone]} empty_world).1
    = Ok tt.
Proof.
  assert (Hd : "monte_test.json" ∉ denied empty_world) by allowed.
  split; [exact Hd|].
  destruct (defaults_only_when_absent full_env hello "monte_test.json" [] None
              {["cls" := PyNone]} empty_world Hd) as (Hset & _ & _ & Hjson & _).
  destruct (defaults_only_when_absent full_env hello "monte_test.json" [] None
              ∅ empty_world Hd) as (Hset0 & _).
  split; [|split].
  - apply (proj2 (Hset "cls" MontyDecoder) PyNone). vm_compute. reflexivity.
  - apply (proj1 (Hset0 "cls" MontyDecoder)). vm_compute. reflexivity.
  - rewrite (proj1 (Hjson eq_refl)). vm_compute. reflexivity.
Defined.

(** Two records dumped to a compressed JSON-Lines file. *)
Lemma dump_jsonl_writes_witness :
  (dumpfn full_env two_records "monte_test.jsonl.gz" [] None ∅ empty_world).1 = Ok tt /\
  trace (dumpfn full_env two_records "monte_test.jsonl.gz" [] None ∅ empty_world).2
    = [EvOpen 0 "monte_test.jsonl.gz" WT;
       EvWrite 0 (encode None 0 (PyDict [("a", PyInt 1)]) +:+ nl);
       EvWrite 0 (encode None 0 (PyDict [("b", PyInt 2)]) +:+ nl);
       EvClose 0] /\
  length (readlines (jsonl_text two_texts)) = 2%nat.
Proof.
  destruct (dump_jsonl_writes full_env two_records "monte_test.jsonl.gz" [] None ∅
              empty_world [PyDict [("a", PyInt 1)]; PyDict [("b", PyInt 2)]] two_texts)
    as (Hr & Htr & _ & _ & Hlines).
  - vm_compute. reflexivity.
  - allowed.
  - reflexivity.
  - repeat (constructor; [vm_compute; reflexivity|]). constructor.
  - split; [exact Hr | split; [exact Htr|]].
    apply Hlines. repeat (constructor; [vm_compute; reflexivity|]). constructor.
Defined.

(** C7 fails as stated: with [indent=2] passed through to the encoder, the
    text of one entry spans three lines, so one entry gives three physical
    lines. *)
Lemma jsonl_indent_counterexample :
  py_iter (PyList [PyDict [("a", PyInt 1)]]) = Some [PyDict [("a", PyInt 1)]] /\
  (dumpfn full_env (PyList [PyDict [("a", PyInt 1)]]) "x.jsonl" [] None
     {["indent" := PyInt 2]} empty_world).1 = Ok tt /\
  readlines <$>
    files (dumpfn full_env (PyList [PyDict [("a", PyInt 1)]]) "x.jsonl" [] None
             {["indent" := PyInt 2]} empty_world).2 !! "x.jsonl"
    = Some ["{" +:+ nl; "  " +:+ quoted "a" +:+ ": 1" +:+ nl; "}" +:+ nl].
Proof. repeat split; vm_compute; reflexivity. Qed.

(** Loading the two-record file back. *)
Lemma load_jsonl_lines_witness :
  (loadfn full_env "monte_test.jsonl.gz" [] None ∅
     (dumpfn full_env two_records "monte_test.jsonl.gz" [] None ∅ empty_world).2).1
    = Ok two_records /\
  length [PyDict [("a", PyInt 1)]; PyDict [("b", PyInt 2)]]
    = length (readlines (jsonl_text two_texts)).
Proof.
  refine (proj1 (load_jsonl_lines full_env "monte_test.jsonl.gz" [] None ∅
            (dumpfn full_env two_records "monte_test.jsonl.gz" [] None ∅ empty_world).2
            (store Gzip (jsonl_text two_texts)) (jsonl_text two_texts) _ _ _ _)
          [PyDict [("a", PyInt 1)]; PyDict [("b", PyInt 2)]] _).
  - vm_compute. reflexivity.
  - allowed.
  - vm_compute. reflexivity.
  - vm_compute. reflexivity.
  - repeat (constructor; [vm_compute; reflexivity|]). constructor.
Defined.


End ContractRuns.

(** * Further properties of the dispatcher *)

(** ** Trailing suffixes and the format identifier *)

Module SuffixFacts.
Import PyStr PyStrFacts.

#[local] Arguments String.append !s1 s2 : simpl nomatch.

Lemma mem_char_app (c : ascii) (a b : string) :
  mem_char c (a +:+ b) = (mem_char c a || mem_char c b)%bool.
Proof.
  induction a as [|x a IH]; simpl; [reflexivity|].
  now rewrite IH, orb_assoc.
Qed.

(** Two ways of cutting the same text: one cut lies before the other. *)
Lemma app_eq_app (a b c d : string) :
  a +:+ b = c +:+ d ->
  (exists x, a = c +:+ x /\ d = x +:+ b) \/ (exists x, c = a +:+ x /\ b = x +:+ d).
Proof.
  revert c. induction a as [|y a IH]; intros c H; simpl in H.
  - right. exists c. auto.
  - destruct c as [|z c]; simpl in H.
    + left. exists (String y a). auto.
    + injection H as -> H. destruct (IH _ H) as [(x & -> & ->) | (x & -> & ->)].
      * left. now exists x.
      * right. now exists x.
Qed.

(** A non-empty tail of a text that ends in [c] contains [c]. *)
Lemma tail_has_last (c : ascii) (m b x : string) :
  m +:+ String c EmptyString = b +:+ x -> x <> EmptyString -> mem_char c x = true.
Proof.
  revert b. induction m as [|a m IH]; intros b H Hx.
  - destruct b as [|a b]; simpl in H.
    + subst x. simpl. now rewrite Ascii.eqb_refl.
    + injection H as _ H. destruct b; [|discriminate]. simpl in H. congruence.
  - destruct b as [|a' b]; simpl in H.
    + subst x. change (mem_char c (String a (m +:+ String c EmptyString)) = true).
      simpl. rewrite mem_char_app. simpl. rewrite Ascii.eqb_refl.
      now rewrite !orb_true_r.
    + injection H as _ H. eauto.
Qed.

(** An occurrence of a marker ending in [c] cannot reach into a suffix
    without [c]. *)
Lemma occurs_app_suffix (c : ascii) (m b s : string) :
  mem_char c s = false ->
  occurs (m +:+ String c EmptyString) (b +:+ s) <-> occurs (m +:+ String c EmptyString) b.
Proof.
  intros Hs. split.
  - intros (pre & post & H). rewrite <- PyStrFacts.app_assoc in H.
    destruct (app_eq_app _ _ _ _ H) as [(x & -> & _) | (x & Hx & ->)].
    + exists pre, x. now rewrite PyStrFacts.app_assoc.
    + destruct x as [|y x].
      * rewrite PyStrFacts.app_nil_r in Hx. subst b.
        exists pre, EmptyString. now rewrite !PyStrFacts.app_nil_r.
      * rewrite <- PyStrFacts.app_assoc in Hx.
        apply tail_has_last in Hx; [|discriminate].
        rewrite mem_char_app, Hx in Hs. discriminate.
  - intros (pre & post & ->). exists pre, (post +:+ s).
    now rewrite !PyStrFacts.app_assoc.
Qed.

Lemma contains_app_suffix (c : ascii) (m b s : string) :
  mem_char c s = false ->
  contains (m +:+ String c EmptyString) (b +:+ s)
    = contains (m +:+ String c EmptyString) b.
Proof.
  intros Hs. pose proof (occurs_app_suffix c m b s Hs) as H.
  rewrite <- !contains_spec in H.
  destruct (contains _ (b +:+ s)), (contains _ b); intuition congruence.
Qed.

Lemma final_component_app (p base s : string) :
  mem_char sep s = false ->
  final_component p base -> final_component (p +:+ s) (base +:+ s).
Proof.
  intros Hs [Hb Hp]. split.
  - now rewrite mem_char_app, Hb, Hs.
  - destruct Hp as [-> | [dir ->]]; [now left|].
    right. exists dir. now rewrite PyStrFacts.app_assoc.
Qed.

End SuffixFacts.

Section Suffix.
Import PyStr PyStrFacts SuffixFacts.

(** X1: appending to a path a suffix without a path separator and, case
    ignored, without the letters [k] and [l] (such as [.gz], [.bz2], [.Z],
    [.xz]) never changes the tag: every marker ends in one of these two
    letters, so no occurrence can reach into the suffix. *)
Theorem identify_format_suffix (fn s : string) :
  mem_char sep s = false ->
  mem_char "k" (lower s) = false ->
  mem_char "l" (lower s) = false ->
  _identify_format (fn +:+ s) = _identify_format fn.
Proof.
  intros Hsep Hk Hl.
  pose proof (final_component_basename fn) as Hf.
  rewrite (identify_format_unfold _ _ (final_component_app _ _ s Hsep Hf)).
  rewrite (identify_format_unfold _ _ Hf), lower_app.
  change ".mpk"%string with (".mp" +:+ String "k" EmptyString).
  change ".yaml"%string with (".yam" +:+ String "l" EmptyString).
  change ".yml"%string with (".ym" +:+ String "l" EmptyString).
  change "jsonl"%string with ("json" +:+ String "l" EmptyString).
  now rewrite !contains_app_suffix by assumption.
Qed.

Lemma identify_format_suffix_witness :
  _identify_format ("data/Run.YAML" +:+ ".GZ") = _identify_format "data/Run.YAML" /\
  _identify_format ("data/Run.YAML" +:+ ".GZ") = "yaml".
Proof.
  split; [|reflexivity].
  apply identify_format_suffix; reflexivity.
Defined.

End Suffix.

(** ** What a call changes *)

Section Effects.

Variable E : env.

Lemma with_zopen_effect {A} (fn : string) (m : mode) (body : nat -> io A) (w : world) :
  (forall fp, confined fp (body fp)) ->
  let w' := (with_zopen (zlib E) fn m body w).2 in
  (forall p, p <> fn -> files w' !! p = files w !! p) /\
  (is_write m = false -> files w' = files w) /\
  denied w' = denied w /\
  fds w' = fds w /\
  (w' = w \/
   (is_write m = true -> is_Some (files w' !! fn)) /\
   exists fp evs, trace w' = trace w ++ EvOpen fp fn m :: evs ++ [EvClose fp]).
Proof.
  intros Hb w'. subst w'.
  destruct (with_zopen_scoped (zlib E) fn m body w Hb)
    as [[-> _] | (fp & evs & data & _ & _ & ->)]; simpl.
  - repeat split; auto.
  - repeat split.
    + intros p Hp. destruct (is_write m); [|reflexivity].
      now apply lookup_insert_ne.
    + now intros ->.
    + right. split; [|now exists fp, evs].
      intros ->. rewrite lookup_insert_eq. eauto.
Qed.

(** X2: [loadfn] never changes a file, the set of unopenable paths or the
    table of open handles, whatever it returns; when it opens the path it
    does so for reading, in binary mode for the [mpk] tag and in text mode
    otherwise. *)
Theorem loadfn_read_only (fn : string) (args : list pyobj) (fmt : option string)
    (kwargs : kwargs_t) (w : world) :
  let w' := (loadfn E fn args fmt kwargs w).2 in
  files w' = files w /\ denied w' = denied w /\ fds w' = fds w /\
  (w' = w \/
   exists fp evs,
     trace w' =
       trace w ++ EvOpen fp fn (if String.eqb (fmt_or fmt fn) "mpk" then RB else RT)
                    :: evs ++ [EvClose fp]).
Proof.
  unfold loadfn, load_as. cbv zeta.
  destruct (String.eqb (fmt_or fmt fn) "mpk").
  - destruct (msgpack E) as [mp|]; [|simpl; auto].
    match goal with |- context [with_zopen _ _ _ ?b] =>
      destruct (with_zopen_effect fn RB b w) as (_ & Hf & Hd & Hh & Ht);
        [auto with confined|]
    end.
    repeat split; auto. destruct Ht as [Ht | [_ Ht]]; auto.
  - match goal with |- context [with_zopen _ _ _ ?b] =>
      destruct (with_zopen_effect fn RT b w) as (_ & Hf & Hd & Hh & Ht);
        [intros fp; apply load_body_confined|]
    end.
    repeat split; auto. destruct Ht as [Ht | [_ Ht]]; auto.
Qed.

(** X3: [dumpfn] changes no file but its target, and neither the set of
    unopenable paths nor the table of open handles; once it has opened the
    target, in binary mode for the [mpk] tag and in text mode otherwise,
    the target exists afterwards, whatever the call returns. *)
Theorem dumpfn_only_target (obj : pyobj) (fn : string) (args : list pyobj)
    (fmt : option string) (kwargs : kwargs_t) (w : world) :
  let w' := (dumpfn E obj fn args fmt kwargs w).2 in
  (forall p, p <> fn -> files w' !! p = files w !! p) /\
  denied w' = denied w /\ fds w' = fds w /\
  (w' = w \/
   is_Some (files w' !! fn) /\
   exists fp evs,
     trace w' =
       trace w ++ EvOpen fp fn (if String.eqb (fmt_or fmt fn) "mpk" then WB else WT)
                    :: evs ++ [EvClose fp]).
Proof.
  unfold dumpfn, dump_as. cbv zeta.
  destruct (String.eqb (fmt_or fmt fn) "mpk").
  - destruct (msgpack E) as [mp|]; [|simpl; auto].
    match goal with |- context [with_zopen _ _ _ ?b] =>
      destruct (with_zopen_effect fn WB b w) as (Hp & _ & Hd & Hh & Ht);
        [auto with confined|]
    end.
    repeat split; auto. destruct Ht as [Ht | [Hs Ht]]; auto.
  - match goal with |- context [with_zopen _ _ _ ?b] =>
      destruct (with_zopen_effect fn WT b w) as (Hp & _ & Hd & Hh & Ht);
        [intros fp; apply dump_body_confined|]
    end.
    repeat split; auto. destruct Ht as [Ht | [Hs Ht]]; auto.
Qed.

(** X4: unless the call stops at the missing msgpack library, an error of
    the open itself comes back unchanged and leaves everything as it was:
    a path that cannot be opened fails both calls, and [loadfn] on a path
    with no file fails with the file-not-found error, for any tag, known
    or not. *)
Theorem open_failure_propagates (obj : pyobj) (fn : string) (args : list pyobj)
    (fmt : option string) (kwargs : kwargs_t) (w : world) :
  (fmt_or fmt fn = "mpk" -> is_Some (msgpack E)) ->
  (fn ∈ denied w ->
   loadfn E fn args fmt kwargs w = (Raise (OSError "PermissionError"), w) /\
   dumpfn E obj fn args fmt kwargs w = (Raise (OSError "PermissionError"), w)) /\
  (fn ∉ denied w -> files w !! fn = None ->
   loadfn E fn args fmt kwargs w = (Raise (OSError "FileNotFoundError"), w)).
Proof.
  intros Hmp. unfold loadfn, dumpfn, load_as, dump_as. cbv zeta.
  destruct (String.eqb (fmt_or fmt fn) "mpk") eqn:Ht.
  - apply String.eqb_eq in Ht. destruct (Hmp Ht) as [mp ->].
    repeat split; intros.
    + now apply with_zopen_denied.
    + now apply with_zopen_denied.
    + now apply with_zopen_missing.
  - repeat split; intros.
    + now apply with_zopen_denied.
    + now apply with_zopen_denied.
    + now apply with_zopen_missing.
Qed.

End Effects.

(** ** Failures part-way and round trips *)

Section Sequences.

(** The loop of the JSON-Lines writer up to the first entry that does not
    encode: what came before is written, nothing after it is. *)
Lemma for_each_write_until {A} (enc : A -> result codec_exn string) (fp : nat)
    (pre : list A) (bad : A) (post : list A) (texts : list string) (e : codec_exn)
    (w : world) (h : handle) :
  Forall2 (fun x t => enc x = Ok t) pre texts ->
  enc bad = Raise e ->
  fds w !! fp = Some h ->
  for_each (fun jobj => io_bind (call (enc jobj))
                          (fun text => fp_write fp (text +:+ nl)))
           (pre ++ bad :: post) w =
    (Raise (Foreign e),
     {| files := files w; denied := denied w;
        fds := <[fp := Handle (h_path h) (h_mode h) (h_data h +:+ jsonl_text texts)]> (fds w);
        trace := trace w ++ map (fun t => EvWrite fp (t +:+ nl)) texts |}).
Proof.
  intros HF Hbad. revert w h.
  induction HF as [|x t pre texts Hx HF IH]; intros w h Hh.
  - simpl. unfold io_bind, call. rewrite Hbad.
    rewrite PyStrFacts.app_nil_r, app_nil_r.
    destruct w, h; simpl in *. now rewrite insert_id.
  - simpl. unfold io_bind at 1. rewrite Hx.
    unfold call at 1, io_bind at 1, fp_write at 1. rewrite Hh.
    erewrite IH by (simpl; apply lookup_insert_eq). simpl.
    rewrite insert_insert_eq, <- app_assoc. simpl.
    now rewrite !PyStrFacts.app_assoc.
Qed.

Lemma traverse_first_failure {A B} (f : A -> result codec_exn B)
    (pre : list A) (bad : A) (post : list A) (ys : list B) (e : codec_exn) :
  Forall2 (fun x y => f x = Ok y) pre ys ->
  f bad = Raise e ->
  traverse f (pre ++ bad :: post) = Raise e.
Proof.
  intros HF Hbad. induction HF as [|x y pre ys Hx HF IH]; simpl.
  - now rewrite Hbad.
  - now rewrite Hx, IH.
Qed.

End Sequences.

Section Outcomes.

Variable E : env.

(** X5: in JSON-Lines mode an entry that fails to encode stops [dumpfn]
    with the encoder's error; the entries before it have been written, one
    write each, and stay in the file, nothing is written for the failing
    entry or for any entry after it, and the handle is closed. *)
Theorem dump_jsonl_partial (obj : pyobj) (fn : string) (args : list pyobj)
    (fmt : option string) (kwargs : kwargs_t) (w : world)
    (pre : list pyobj) (bad : pyobj) (post : list pyobj) (texts : list string)
    (e : codec_exn) :
  fmt_or fmt fn = "jsonl" ->
  fn ∉ denied w ->
  py_iter obj = Some (pre ++ bad :: post) ->
  Forall2 (fun x t => json_dumps (json E) x args (setdefault "cls" MontyEncoder kwargs) = Ok t)
          pre texts ->
  json_dumps (json E) bad args (setdefault "cls" MontyEncoder kwargs) = Raise e ->
  let fp := fresh (dom (fds w)) in
  let r := dumpfn E obj fn args fmt kwargs w in
  r.1 = Raise (Foreign e) /\
  trace r.2 =
    trace w ++ EvOpen fp fn WT :: map (fun t => EvWrite fp (t +:+ nl)) texts ++ [EvClose fp] /\
  files r.2 !! fn = Some (compress (zlib E) (compression_of fn) (jsonl_text texts)) /\
  fds r.2 = fds w.
Proof.
  intros Hfmt Hd Hit HF Hbad fp r. subst r fp. unfold dumpfn. cbv zeta. rewrite Hfmt.
  change (dump_as E "jsonl" obj fn args kwargs) with
    (with_zopen (zlib E) fn WT (fun fp =>
       match py_iter obj with
       | None => io_raise (TypeError "object is not iterable")
       | Some entries =>
           for_each (fun jobj =>
             io_bind (call (json_dumps (json E) jobj args
                              (setdefault "cls" MontyEncoder kwargs)))
               (fun text => fp_write fp (text +:+ nl))) entries
       end)).
  rewrite Hit. unfold with_zopen, zopen.
  rewrite decide_False by assumption. simpl.
  erewrite for_each_write_until; [|eassumption|eassumption|apply lookup_insert_eq].
  unfold fp_close. simpl. rewrite lookup_insert_eq. simpl.
  rewrite !insert_insert_eq, delete_insert_id by apply fresh_fd_free.
  repeat split.
  - now rewrite <- !app_assoc.
  - apply lookup_insert_eq.
Qed.

(** X6: in JSON-Lines mode a value that cannot be iterated makes [dumpfn]
    raise a [TypeError] that is not the invalid-format error; by then the
    target has been opened, so it is left created or truncated, with the
    content of an empty text. *)
Theorem dump_jsonl_not_iterable (obj : pyobj) (fn : string) (args : list pyobj)
    (fmt : option string) (kwargs : kwargs_t) (w : world) :
  fmt_or fmt fn = "jsonl" ->
  fn ∉ denied w ->
  py_iter obj = None ->
  dumpfn E obj fn args fmt kwargs w =
    (Raise (TypeError "object is not iterable"),
     after_with (zlib E) fn WT EmptyString [] w) /\
  (forall t, TypeError "object is not iterable" <> InvalidFormat t).
Proof.
  intros Hfmt Hd Hit. split.
  - unfold dumpfn. cbv zeta. rewrite Hfmt.
    change (dump_as E "jsonl" obj fn args kwargs) with
      (with_zopen (zlib E) fn WT (fun fp =>
         match py_iter obj with
         | None => io_raise (TypeError "object is not iterable")
         | Some entries =>
             for_each (fun jobj =>
               io_bind (call (json_dumps (json E) jobj args
                                (setdefault "cls" MontyEncoder kwargs)))
                 (fun text => fp_write fp (text +:+ nl))) entries
         end)).
    rewrite Hit. now apply with_zopen_write_raise.
  - intros t H. unfold InvalidFormat in H. simpl in H. inversion H.
Qed.

(** X7: in JSON mode the whole value is encoded before anything is written:
    on success the file holds exactly the encoded text, put there by one
    write, whatever it held before; when the encoder raises, nothing is
    written, but the target, already opened, has lost its former content. *)
Theorem dump_json_all_or_nothing (obj : pyobj) (fn : string) (args : list pyobj)
    (fmt : option string) (kwargs : kwargs_t) (w : world) :
  fmt_or fmt fn = "json" ->
  fn ∉ denied w ->
  let fp := fresh (dom (fds w)) in
  let r := dumpfn E obj fn args fmt kwargs w in
  let none := compress (zlib E) (compression_of fn) EmptyString in
  (forall data,
     json_dumps (json E) obj args (setdefault "cls" MontyEncoder kwargs) = Ok data ->
     r.1 = Ok tt /\
     trace r.2 = trace w ++ [EvOpen fp fn WT; EvWrite fp data; EvClose fp] /\
     files r.2 !! fn = Some (compress (zlib E) (compression_of fn) data)) /\
  (forall e,
     json_dumps (json E) obj args (setdefault "cls" MontyEncoder kwargs) = Raise e ->
     r.1 = Raise (Foreign e) /\
     trace r.2 = trace w ++ [EvOpen fp fn WT; EvClose fp] /\
     files r.2 !! fn = Some none).
Proof.
  intros Hfmt Hd fp r none. subst fp r none. unfold dumpfn. cbv zeta.
  rewrite Hfmt, (dump_json_run E fn args kwargs w obj Hd).
  split.
  - intros data ->. simpl. repeat split. apply lookup_insert_eq.
  - intros e ->. simpl. repeat split. apply lookup_insert_eq.
Qed.

(** X8: with msgpack present, on a path or tag that resolves to [mpk], a
    value that the packer (given the default fallback) writes as bytes the
    unpacker (given the default hook) reads back comes back from [loadfn]
    after [dumpfn], provided compression restores the bytes. *)
Theorem dump_load_mpk_roundtrip (d : pyobj) (fn : string) (fmt : option string)
    (w : world) (mp : msgpack_module) (data : string) :
  fmt_or fmt fn = "mpk" ->
  msgpack E = Some mp ->
  fn ∉ denied w ->
  msgpack_packb mp d [] (setdefault "default" default ∅) = Ok data ->
  msgpack_unpackb mp data [] (setdefault "object_hook" object_hook ∅) = Ok d ->
  decompress (zlib E) (compression_of fn)
    (compress (zlib E) (compression_of fn) data) = Some data ->
  (dumpfn E d fn [] fmt ∅ w).1 = Ok tt /\
  (loadfn E fn [] fmt ∅ (dumpfn E d fn [] fmt ∅ w).2).1 = Ok d.
Proof.
  intros Hfmt Hmp Hd Henc Hdec Hz. unfold loadfn, dumpfn. cbv zeta. rewrite Hfmt.
  rewrite (dump_mpk_run E fn [] ∅ w d Hd mp Hmp), Henc. split; [reflexivity|].
  erewrite load_mpk_run; [| exact Hd | apply lookup_insert_eq | exact Hz | exact Hmp].
  simpl. now rewrite Hdec.
Qed.

(** X9: a JSON-Lines round trip.  When every entry encodes to a text
    without a newline and each such line decodes, [loadfn] after [dumpfn]
    returns the list of the decoded lines, one per entry and in the order
    of the entries; when every line decodes to its entry, that is the list
    of the entries. *)
Theorem dump_load_jsonl_roundtrip (obj : pyobj) (fn : string) (fmt : option string)
    (w : world) (entries : list pyobj) (texts : list string) (values : list pyobj) :
  fmt_or fmt fn = "jsonl" ->
  fn ∉ denied w ->
  py_iter obj = Some entries ->
  Forall2 (fun x t => json_dumps (json E) x [] (setdefault "cls" MontyEncoder ∅) = Ok t)
          entries texts ->
  Forall (fun t => mem_char newline t = false) texts ->
  Forall2 (fun t v => json_loads (json E) (t +:+ nl) [] (setdefault "cls" MontyDecoder ∅) = Ok v)
          texts values ->
  decompress (zlib E) (compression_of fn)
    (compress (zlib E) (compression_of fn) (jsonl_text texts)) = Some (jsonl_text texts) ->
  (dumpfn E obj fn [] fmt ∅ w).1 = Ok tt /\
  (loadfn E fn [] fmt ∅ (dumpfn E obj fn [] fmt ∅ w).2).1 = Ok (PyList values) /\
  length values = length entries.
Proof.
  intros Hfmt Hd Hit Henc Hnl Hdec Hz. unfold loadfn, dumpfn. cbv zeta. rewrite Hfmt.
  rewrite (dump_jsonl_run E fn [] ∅ w obj Hd entries texts Hit Henc).
  split; [reflexivity|]. split.
  - erewrite load_jsonl_run; [| exact Hd | apply lookup_insert_eq | exact Hz].
    simpl. rewrite (readlines_jsonl_text texts Hnl).
    assert (Ht : traverse
                   (fun jline => json_loads (json E) jline []
                                   (setdefault "cls" MontyDecoder ∅))
                   (map (fun t => t +:+ nl) texts) = Ok values).
    { apply traverse_Forall2. clear -Hdec.
      induction Hdec; simpl; constructor; auto. }
    now rewrite Ht.
  - rewrite <- (Forall2_length _ _ _ Hdec). symmetry. eapply Forall2_length, Henc.
Qed.

(** X10: YAML gets the caller's options as they are: no default is added
    on either side, and positional arguments are passed on too. *)
Theorem yaml_options_verbatim (obj : pyobj) (fn : string) (args : list pyobj)
    (fmt : option string) (kwargs : kwargs_t) (w : world) (yaml : yaml_class) :
  fmt_or fmt fn = "yaml" ->
  YAML E = Some yaml ->
  fn ∉ denied w ->
  (forall raw text,
     files w !! fn = Some raw ->
     decompress (zlib E) (compression_of fn) raw = Some text ->
     (loadfn E fn args fmt kwargs w).1 = propagate (yaml_loads yaml text args kwargs)) /\
  (dumpfn E obj fn args fmt kwargs w).1
    = propagate (map_result (fun _ => tt) (yaml_dumps yaml obj args kwargs)) /\
  (forall data,
     yaml_dumps yaml obj args kwargs = Ok data ->
     files (dumpfn E obj fn args fmt kwargs w).2 !! fn
       = Some (compress (zlib E) (compression_of fn) data)).
Proof.
  intros Hfmt Hy Hd. unfold loadfn, dumpfn. cbv zeta. rewrite Hfmt.
  rewrite (dump_yaml_run E fn args kwargs w obj Hd yaml Hy). repeat split.
  - intros raw text Hf Hz.
    now rewrite (load_yaml_run E fn args kwargs w raw text Hd Hf Hz yaml Hy).
  - now destruct (yaml_dumps yaml obj args kwargs).
  - intros data ->. apply lookup_insert_eq.
Qed.

(** X11: in JSON-Lines mode [loadfn] returns no partial list: when the
    lines before some line all decode and that line does not, the call
    raises the decoder's error for that line instead of returning the
    values decoded so far, whatever the later lines hold. *)
Theorem load_jsonl_first_failure (fn : string) (args : list pyobj)
    (fmt : option string) (kwargs : kwargs_t) (w : world) (raw text : string)
    (pre : list string) (bad : string) (post : list string) (values : list pyobj)
    (e : codec_exn) :
  fmt_or fmt fn = "jsonl" ->
  fn ∉ denied w ->
  files w !! fn = Some raw ->
  decompress (zlib E) (compression_of fn) raw = Some text ->
  readlines text = pre ++ bad :: post ->
  Forall2 (fun jline v =>
             json_loads (json E) jline args (setdefault "cls" MontyDecoder kwargs) = Ok v)
          pre values ->
  json_loads (json E) bad args (setdefault "cls" MontyDecoder kwargs) = Raise e ->
  (loadfn E fn args fmt kwargs w).1 = Raise (Foreign e).
Proof.
  intros Hfmt Hd Hf Hz Hlines Hpre Hbad. unfold loadfn. cbv zeta.
  rewrite Hfmt, (load_jsonl_run E fn args kwargs w raw text Hd Hf Hz). simpl.
  now rewrite Hlines, (traverse_first_failure _ pre bad post values e Hpre Hbad).
Qed.

End Outcomes.

(** ** Results do not depend on the trace *)

Section TraceBlind.

Lemma same_store_refl (w : world) : same_store w w.
Proof. now repeat split. Qed.

Lemma tb_ret {A} (a : A) : trace_blind (io_ret a).
Proof. intros w1 w2 H. now split. Qed.

Lemma tb_raise {A} (e : exn) : trace_blind (@io_raise A e).
Proof. intros w1 w2 H. now split. Qed.

Lemma tb_call {A} (r : result codec_exn A) : trace_blind (call r).
Proof. intros w1 w2 H. destruct r; now split. Qed.

Lemma tb_read (C : compressor) (fp : nat) : trace_blind (fp_read C fp).
Proof.
  intros w1 w2 (Hf & Hd & Hh). unfold fp_read. rewrite Hh.
  destruct (fds w2 !! fp) as [h|]; [|now repeat split].
  destruct (decompress C _ _); now repeat split.
Qed.

Lemma tb_write (fp : nat) (data : string) : trace_blind (fp_write fp data).
Proof.
  intros w1 w2 (Hf & Hd & Hh). unfold fp_write. rewrite Hh.
  destruct (fds w2 !! fp) as [h|]; [|now repeat split].
  simpl. repeat split; auto; now rewrite ?Hh.
Qed.

Lemma tb_bind {A B} (m : io A) (k : A -> io B) :
  trace_blind m -> (forall a, trace_blind (k a)) -> trace_blind (io_bind m k).
Proof.
  intros Hm Hk w1 w2 H. unfold io_bind. destruct (Hm w1 w2 H) as [Hr Hs].
  destruct (m w1) as [[a|e] v1], (m w2) as [[a'|e'] v2]; simpl in *;
    try discriminate.
  - injection Hr as ->. now apply Hk.
  - injection Hr as ->. now split.
Qed.

Lemma tb_for_each {A} (body : A -> io unit) (l : list A) :
  (forall a, trace_blind (body a)) -> trace_blind (for_each body l).
Proof.
  intros Hb. induction l as [|x l IH]; simpl.
  - apply tb_ret.
  - apply tb_bind; auto.
Qed.

Lemma tb_close (C : compressor) (fp : nat) (w1 w2 : world) :
  same_store w1 w2 -> same_store (fp_close C fp w1) (fp_close C fp w2).
Proof.
  intros (Hf & Hd & Hh). unfold fp_close. rewrite Hh.
  destruct (fds w2 !! fp) as [h|]; [|now repeat split].
  simpl. repeat split; auto; now rewrite ?Hf, ?Hh.
Qed.

Lemma tb_with_zopen {A} (C : compressor) (fn : string) (m : mode)
    (body : nat -> io A) :
  (forall fp, trace_blind (body fp)) -> trace_blind (with_zopen C fn m body).
Proof.
  intros Hb w1 w2 (Hf & Hd & Hh). unfold with_zopen, zopen. rewrite Hd, Hh, Hf.
  destruct (decide (fn ∈ denied w2)); [now repeat split|].
  destruct (is_write m).
  - match goal with |- context [body ?fp ?v1] =>
      match goal with |- context [body fp ?v2] =>
        tryif constr_eq v1 v2 then fail else
          destruct (Hb fp v1 v2) as [Hr Hs]; [simpl; now rewrite ?Hf, ?Hd, ?Hh|]
      end
    end.
    destruct (body _ _) as [r1 v1], (body _ _) as [r2 v2]; simpl in *.
    split; [assumption | now apply tb_close].
  - destruct (files w2 !! fn) as [raw|]; [|now repeat split].
    match goal with |- context [body ?fp ?v1] =>
      match goal with |- context [body fp ?v2] =>
        tryif constr_eq v1 v2 then fail else
          destruct (Hb fp v1 v2) as [Hr Hs]; [simpl; now rewrite ?Hf, ?Hd, ?Hh|]
      end
    end.
    destruct (body _ _) as [r1 v1], (body _ _) as [r2 v2]; simpl in *.
    split; [assumption | now apply tb_close].
Qed.

End TraceBlind.

Create HintDb tb.
#[global] Hint Resolve tb_ret tb_raise tb_call tb_read tb_write tb_bind tb_for_each
  tb_with_zopen : tb.

Section Repeat.

Variable E : env.

Lemma loadfn_trace_blind (fn : string) (args : list pyobj) (fmt : option string)
    (kwargs : kwargs_t) :
  trace_blind (loadfn E fn args fmt kwargs).
Proof.
  unfold loadfn, load_as. cbv zeta.
  repeat match goal with
         | |- context [if ?b then _ else _] => destruct b
         | |- context [match ?o with Some _ => _ | None => _ end] => destruct o
         | |- trace_blind (with_zopen _ _ _ _) => apply tb_with_zopen; intros fp
         end; auto 10 with tb.
Qed.

Lemma loadfn_keeps_store (fn : string) (args : list pyobj) (fmt : option string)
    (kwargs : kwargs_t) (w : world) :
  same_store (loadfn E fn args fmt kwargs w).2 w.
Proof.
  unfold loadfn, load_as. cbv zeta.
  destruct (String.eqb (fmt_or fmt fn) "mpk").
  - destruct (msgpack E) as [mp|]; [|apply same_store_refl].
    match goal with |- context [with_zopen _ _ _ ?b] =>
      destruct (with_zopen_effect E fn RB b w) as (_ & Hf & Hd & Hh & _);
        [auto with confined|]
    end.
    repeat split; auto.
  - match goal with |- context [with_zopen _ _ _ ?b] =>
      destruct (with_zopen_effect E fn RT b w) as (_ & Hf & Hd & Hh & _);
        [intros fp; apply load_body_confined|]
    end.
    repeat split; auto.
Qed.


End Repeat.

(** ** Writing replaces *)

Section Overwrite.

Variable E : env.

Lemma insert_agree_off (fn : string) (x : string) (f1 f2 : gmap string string) :
  (forall p, p <> fn -> f1 !! p = f2 !! p) -> <[fn := x]> f1 = <[fn := x]> f2.
Proof.
  intros H. apply map_eq. intros p. destruct (decide (fn = p)) as [->|Hp].
  - now rewrite !lookup_insert_eq.
  - rewrite !lookup_insert_ne by assumption. apply H. congruence.
Qed.

(** A [with] block that writes gives the same outcome whatever the target
    held before: either the open fails in both worlds, or they end with
    the same files. *)
Lemma with_zopen_overwrites {A} (fn : string) (m : mode) (body : nat -> io A)
    (w1 w2 : world) :
  is_write m = true ->
  (forall fp, trace_blind (body fp)) ->
  agree_off fn w1 w2 ->
  (with_zopen (zlib E) fn m body w1).1 = (with_zopen (zlib E) fn m body w2).1 /\
  (((with_zopen (zlib E) fn m body w1).2 = w1 /\
    (with_zopen (zlib E) fn m body w2).2 = w2) \/
   same_store (with_zopen (zlib E) fn m body w1).2 (with_zopen (zlib E) fn m body w2).2).
Proof.
  intros Hm Hb (Hf & Hd & Hh). unfold with_zopen, zopen. rewrite Hd, Hh, Hm.
  destruct (decide (fn ∈ denied w2)); [simpl; auto|].
  match goal with |- context [body ?fp ?v1] =>
    match goal with |- context [body fp ?v2] =>
      tryif constr_eq v1 v2 then fail else
        destruct (Hb fp v1 v2) as [Hr Hs];
          [repeat split; simpl; auto using insert_agree_off|]
    end
  end.
  destruct (body _ _) as [r1 v1], (body _ _) as [r2 v2]; simpl in *.
  split; [assumption|]. right. now apply tb_close.
Qed.

Lemma dump_body_trace_blind (fmt : string) (obj : pyobj) (args : list pyobj)
    (kwargs : kwargs_t) (fp : nat) :
  trace_blind
    (if String.eqb fmt "yaml" then
       match YAML E with
       | None => io_raise yaml_missing
       | Some yaml =>
           let! data := call (yaml_dumps yaml obj args kwargs) in
           fp_write fp data
       end
     else if (String.eqb fmt "json" || String.eqb fmt "jsonl")%bool then
       let kwargs := setdefault "cls" MontyEncoder kwargs in
       if String.eqb fmt "jsonl" then
         match py_iter obj with
         | None => io_raise (TypeError "object is not iterable")
         | Some entries =>
             for_each (fun jobj =>
               let! text := call (json_dumps (json E) jobj args kwargs) in
               fp_write fp (text +:+ nl)) entries
         end
       else
         let! text := call (json_dumps (json E) obj args kwargs) in
         fp_write fp text
     else io_raise (InvalidFormat fmt)).
Proof.
  repeat match goal with
         | |- context [if ?b then _ else _] => destruct b
         | |- context [match ?o with Some _ => _ | None => _ end] => destruct o
         end; cbv zeta; auto 10 with tb.
Qed.


End Overwrite.

(** ** Concrete runs of the further properties *)

Section FurtherRuns.
Import Ref.

Ltac allowed := vm_compute; discriminate.
Ltac each_by_computation := repeat (constructor; [vm_compute; reflexivity|]); constructor.

(** [loadfn] on a name with no file behind it. *)
Lemma open_failure_propagates_witness :
  loadfn full_env "missing.json" [] None ∅ empty_world
    = (Raise (OSError "FileNotFoundError"), empty_world).
Proof.
  refine (proj2 (open_failure_propagates full_env hello "missing.json" [] None ∅
                   empty_world _) _ _).
  - intros _. eexists. reflexivity.
  - allowed.
  - vm_compute. reflexivity.
Defined.

(** Three entries, the second one an object the encoder does not know. *)
Lemma dump_jsonl_partial_witness :
  (dumpfn full_env
     (PyList [PyDict [("a", PyInt 1)]; PyRef "object"; PyDict [("b", PyInt 2)]])
     "x.jsonl" [] None ∅ empty_world).1 = Raise (Foreign not_serializable) /\
  files (dumpfn full_env
     (PyList [PyDict [("a", PyInt 1)]; PyRef "object"; PyDict [("b", PyInt 2)]])
     "x.jsonl" [] None ∅ empty_world).2 !! "x.jsonl"
    = Some (jsonl_text [encode None 0 (PyDict [("a", PyInt 1)])]).
Proof.
  destruct (dump_jsonl_partial full_env
              (PyList [PyDict [("a", PyInt 1)]; PyRef "object"; PyDict [("b", PyInt 2)]])
              "x.jsonl" [] None ∅ empty_world
              [PyDict [("a", PyInt 1)]] (PyRef "object") [PyDict [("b", PyInt 2)]]
              [encode None 0 (PyDict [("a", PyInt 1)])] not_serializable)
    as (Hr & _ & Hf & _).
  - vm_compute. reflexivity.
  - allowed.
  - reflexivity.
  - each_by_computation.
  - vm_compute. reflexivity.
  - split; [exact Hr | exact Hf].
Defined.

(** Dumping the number 5 as JSON Lines. *)
Lemma dump_jsonl_not_iterable_witness :
  (dumpfn full_env (PyInt 5) "x.jsonl" [] None ∅ empty_world).1
    = Raise (TypeError "object is not iterable") /\
  files (dumpfn full_env (PyInt 5) "x.jsonl" [] None ∅ empty_world).2 !! "x.jsonl"
    = Some EmptyString.
Proof.
  destruct (dump_jsonl_not_iterable full_env (PyInt 5) "x.jsonl" [] None ∅ empty_world)
    as [H _].
  - vm_compute. reflexivity.
  - allowed.
  - reflexivity.
  - rewrite H. split; [reflexivity | vm_compute; reflexivity].
Defined.

(** An object the encoder does not know, dumped over an existing file. *)
Lemma dump_json_all_or_nothing_witness :
  files (dumpfn full_env hello "x.json" [] None ∅ empty_world).2 !! "x.json"
    = Some hello_json /\
  (dumpfn full_env (PyRef "object") "x.json" [] None ∅
     (dumpfn full_env hello "x.json" [] None ∅ empty_world).2).1
    = Raise (Foreign not_serializable) /\
  files (dumpfn full_env (PyRef "object") "x.json" [] None ∅
           (dumpfn full_env hello "x.json" [] None ∅ empty_world).2).2 !! "x.json"
    = Some EmptyString.
Proof.
  destruct (dump_json_all_or_nothing full_env (PyRef "object") "x.json" [] None ∅
              (dumpfn full_env hello "x.json" [] None ∅ empty_world).2)
    as [_ Hfail].
  - vm_compute. reflexivity.
  - allowed.
  - destruct (Hfail not_serializable) as (Hr & _ & Hf).
    + vm_compute. reflexivity.
    + split; [vm_compute; reflexivity | split; [exact Hr | exact Hf]].
Defined.

(** The msgpack test of the suite. *)
Lemma dump_load_mpk_roundtrip_witness :
  (loadfn full_env "monte_test.mpk" [] None ∅
     (dumpfn full_env hello "monte_test.mpk" [] None ∅ empty_world).2).1 = Ok hello.
Proof.
  refine (proj2 (dump_load_mpk_roundtrip full_env hello "monte_test.mpk" None
                   empty_world msgpack_ref (pack hello) _ _ _ _ _ _)).
  - vm_compute. reflexivity.
  - reflexivity.
  - allowed.
  - vm_compute. reflexivity.
  - vm_compute. reflexivity.
  - vm_compute. reflexivity.
Defined.

(** The JSON-Lines test of the suite, on two plain records. *)
Lemma dump_load_jsonl_roundtrip_witness :
  (loadfn full_env "monte_test.jsonl.gz" [] None ∅
     (dumpfn full_env two_records "monte_test.jsonl.gz" [] None ∅ empty_world).2).1
    = Ok two_records.
Proof.
  refine (proj1 (proj2 (dump_load_jsonl_roundtrip full_env two_records
                          "monte_test.jsonl.gz" None empty_world
                          [PyDict [("a", PyInt 1)]; PyDict [("b", PyInt 2)]] two_texts
                          [PyDict [("a", PyInt 1)]; PyDict [("b", PyInt 2)]]
                          _ _ _ _ _ _ _))).
  - vm_compute. reflexivity.
  - allowed.
  - reflexivity.
  - each_by_computation.
  - each_by_computation.
  - each_by_computation.
  - vm_compute. reflexivity.
Defined.

(** A YAML dump: what is stored is the text of the YAML writer. *)
Lemma yaml_options_verbatim_witness :
  files (dumpfn full_env hello "x.yaml" [] None ∅ empty_world).2 !! "x.yaml"
    = Some hello_yaml.
Proof.
  refine (proj2 (proj2 (yaml_options_verbatim full_env hello "x.yaml" [] None ∅
                          empty_world yaml_ref _ _ _)) hello_yaml _).
  - vm_compute. reflexivity.
  - reflexivity.
  - allowed.
  - vm_compute. reflexivity.
Defined.

(** A file with a blank line between two values. *)
Lemma load_jsonl_first_failure_witness :
  (loadfn full_env "x.jsonl" [] None ∅ blank_line_world).1 = Raise (Foreign decode_error).
Proof.
  refine (load_jsonl_first_failure full_env "x.jsonl" [] None ∅ blank_line_world
            ("1" +:+ nl +:+ nl +:+ "2" +:+ nl) ("1" +:+ nl +:+ nl +:+ "2" +:+ nl)
            ["1" +:+ nl] nl ["2" +:+ nl] [PyInt 1] decode_error _ _ _ _ _ _ _).
  - vm_compute. reflexivity.
  - allowed.
  - vm_compute. reflexivity.
  - vm_compute. reflexivity.
  - vm_compute. reflexivity.
  - each_by_computation.
  - vm_compute. reflexivity.
Defined.

(** A msgpack file name in an installation without msgpack. *)
Lemma msgpack_missing_before_open_witness :
  loadfn no_msgpack_env "x.mpk" [] None ∅ empty_world = (Raise msgpack_missing, empty_world) /\
  dumpfn no_msgpack_env hello "x.mpk" [] None ∅ empty_world
    = (Raise msgpack_missing, empty_world).
Proof.
  apply (msgpack_missing_before_open no_msgpack_env hello "x.mpk" [] None ∅ empty_world).
  - reflexivity.
  - vm_compute. reflexivity.
Defined.



End FurtherRuns.
